(** * PCA9534 / PCA9534A 8-bit I2C I/O expander driver

    A shallow embedding of [src/PCA9534.c] and [include/PCA9534.h].

    - [uint8_t] and [int8_t] values are integers of [Z]; every conversion
      to [uint8_t] that the C code performs is written out as [u8].
    - The platform layer ([PCA9534_Platform_t]) is a record of optional
      functions over an abstract [World]: a null function pointer is
      [None].  The transport acts on the [World] only; it does not alias
      the handler object or the caller's data byte.
    - The driver runs in a state monad with failure.  The state holds the
      handler object, the byte the caller's [Data] pointer refers to, the
      world behind the bus, and a ghost log [bus] of every platform call
      with its arguments and its return value.  Failure ([None]) is C
      undefined behaviour: a null handler dereferenced or a null function
      pointer called. *)

From Stdlib Require Import ZArith List Bool Lia.
Import ListNotations.
Local Open Scope Z_scope.

(** ** Machine integers *)

Abbreviation uint8_t := Z (only parsing).
Abbreviation int8_t := Z (only parsing).

(** Conversion of an [int] to [uint8_t]. *)
Definition u8 (x : Z) : uint8_t := x mod 256.

(** ** Exported data types ([PCA9534.h]) *)

Inductive PCA9534_Result_t : Set :=
| PCA9534_OK
| PCA9534_FAIL
| PCA9534_INVALID_PARAM.

Definition Result_eqb (a b : PCA9534_Result_t) : bool :=
  match a, b with
  | PCA9534_OK, PCA9534_OK => true
  | PCA9534_FAIL, PCA9534_FAIL => true
  | PCA9534_INVALID_PARAM, PCA9534_INVALID_PARAM => true
  | _, _ => false
  end.

(** A C enum object can hold any integer, so the device tag is an integer
    and the two enumerators are constants. *)
Abbreviation PCA9534_Device_t := Z (only parsing).
Definition PCA9534_DEVICE_PCA9534 : PCA9534_Device_t := 0.
Definition PCA9534_DEVICE_PCA9534A : PCA9534_Device_t := 1.

(** ** Private constants ([PCA9534.c]) *)

Definition PCA9534_I2C_ADDRESS_BASE : Z := 0x20.
Definition PCA9534A_I2C_ADDRESS_BASE : Z := 0x38.

Definition PCA9534_REG_INPUT_PORT : Z := 0x00.
Definition PCA9534_REG_OUTPUT_PORT : Z := 0x01.
Definition PCA9534_REG_POLARITY_INVERT : Z := 0x02.
Definition PCA9534_REG_CONFIGURATION : Z := 0x03.

(** ** Pointers and the bus log *)

(** A pointer argument is either null or refers to its object in the
    state: the handler for a [PCA9534_Handler_t *], the caller's byte for
    the [uint8_t *Data] of [PCA9534_Read]. *)
Inductive pointer : Set := NULL | VALID.

(** One entry per platform call, in call order. [EvReceive] records the
    buffer as the transport left it. *)
Inductive BusEvent : Set :=
| EvInit (ret : int8_t)
| EvDeInit (ret : int8_t)
| EvSend (Address : uint8_t) (Data : list uint8_t) (Len : uint8_t) (ret : int8_t)
| EvReceive (Address : uint8_t) (Len : uint8_t) (ret : int8_t) (Data : list uint8_t).

Definition ev_ret (e : BusEvent) : int8_t :=
  match e with
  | EvInit r | EvDeInit r | EvSend _ _ _ r | EvReceive _ _ r _ => r
  end.

(** The bytes put on the bus by the sends of a log. *)
Fixpoint sent (evs : list BusEvent) : list (uint8_t * list uint8_t) :=
  match evs with
  | [] => []
  | EvSend a d _ _ :: tl => (a, d) :: sent tl
  | _ :: tl => sent tl
  end.

Section Driver.

Variable World : Type.

(** ** Platform layer and handler ([PCA9534.h]) *)

Definition PCA9534_Platform_InitDeinit_t := World -> int8_t * World.

(** [Send Address Data Len]: the bytes of the buffer go out. *)
Definition PCA9534_Platform_Send_t :=
  uint8_t -> list uint8_t -> uint8_t -> World -> int8_t * World.

(** [Receive Address Data Len]: takes the buffer and gives it back as the
    transport left it. *)
Definition PCA9534_Platform_Receive_t :=
  uint8_t -> list uint8_t -> uint8_t -> World -> int8_t * list uint8_t * World.

Record PCA9534_Platform_t : Type := mkPlatform {
  Init : option PCA9534_Platform_InitDeinit_t;
  DeInit : option PCA9534_Platform_InitDeinit_t;
  Send : option PCA9534_Platform_Send_t;
  Receive : option PCA9534_Platform_Receive_t
}.

Record PCA9534_Handler_t : Type := mkHandler {
  Device : PCA9534_Device_t;
  AddressI2C : uint8_t;
  Platform : PCA9534_Platform_t
}.

(** ** Program state and the driver monad *)

Record State : Type := mkState {
  hdl : PCA9534_Handler_t;
  data : uint8_t;
  world : World;
  bus : list BusEvent
}.

Definition M (A : Type) : Type := State -> option (A * State).

Definition ret {A} (a : A) : M A := fun s => Some (a, s).

Definition bind {A B} (m : M A) (k : A -> M B) : M B :=
  fun s => match m s with
           | Some (a, s') => k a s'
           | None => None
           end.

Notation "x <- c1 ;; c2" := (bind c1 (fun x => c2))
  (at level 200, c1 at level 100, c2 at level 200, right associativity,
   only parsing).
Notation "c1 ;; c2" := (bind c1 (fun _ => c2))
  (at level 200, c2 at level 200, right associativity, only parsing).

(** [*Handler] *)
Definition deref (Handler : pointer) : M PCA9534_Handler_t :=
  fun s => match Handler with
           | NULL => None
           | VALID => Some (hdl s, s)
           end.

(** [*Handler = h] *)
Definition store (Handler : pointer) (h : PCA9534_Handler_t) : M unit :=
  fun s => match Handler with
           | NULL => None
           | VALID => Some (tt, mkState h (data s) (world s) (bus s))
           end.

(** [*Data] and [*Data = v] *)
Definition deref_data (Data : pointer) : M uint8_t :=
  fun s => match Data with
           | NULL => None
           | VALID => Some (data s, s)
           end.

Definition store_data (Data : pointer) (v : uint8_t) : M unit :=
  fun s => match Data with
           | NULL => None
           | VALID => Some (tt, mkState (hdl s) v (world s) (bus s))
           end.

(** Calls through the platform's function pointers. *)
Definition call_InitDeinit (ev : int8_t -> BusEvent)
           (f : option PCA9534_Platform_InitDeinit_t) : M int8_t :=
  fun s => match f with
           | None => None
           | Some g =>
               let '(r, w) := g (world s) in
               Some (r, mkState (hdl s) (data s) w (bus s ++ [ev r]))
           end.

Definition call_Send (f : option PCA9534_Platform_Send_t)
           (Address : uint8_t) (Data : list uint8_t) (Len : uint8_t) : M int8_t :=
  fun s => match f with
           | None => None
           | Some g =>
               let '(r, w) := g Address Data Len (world s) in
               Some (r, mkState (hdl s) (data s) w
                                (bus s ++ [EvSend Address Data Len r]))
           end.

Definition call_Receive (f : option PCA9534_Platform_Receive_t)
           (Address : uint8_t) (Data : list uint8_t) (Len : uint8_t)
  : M (int8_t * list uint8_t) :=
  fun s => match f with
           | None => None
           | Some g =>
               let '(r, buf, w) := g Address Data Len (world s) in
               Some ((r, buf), mkState (hdl s) (data s) w
                                       (bus s ++ [EvReceive Address Len r buf]))
           end.

Definition is_null {A} (p : option A) : bool :=
  match p with None => true | Some _ => false end.

(** ** Private functions *)

Definition PCA9534_WriteReg (Handler : pointer) (Address Data : uint8_t)
  : M PCA9534_Result_t :=
  h <- deref Handler ;;
  r <- call_Send (Send (Platform h)) (AddressI2C h) [Address; Data] 2 ;;
  if r <? 0 then ret PCA9534_FAIL
  else ret PCA9534_OK.

(** The [uint8_t *Data] parameter is an in-out value: the function takes
    the byte the pointer refers to and returns it as the receive left it. *)
Definition PCA9534_ReadReg (Handler : pointer) (Address : uint8_t) (Data : uint8_t)
  : M (PCA9534_Result_t * uint8_t) :=
  h <- deref Handler ;;
  r <- call_Send (Send (Platform h)) (AddressI2C h) [Address] 1 ;;
  if r <? 0 then ret (PCA9534_FAIL, Data)
  else
    h <- deref Handler ;;
    rb <- call_Receive (Receive (Platform h)) (AddressI2C h) [Data] 1 ;;
    let Data' := nth 0 (snd rb) Data in
    if fst rb <? 0 then ret (PCA9534_FAIL, Data')
    else ret (PCA9534_OK, Data').

(** ** Public functions *)

Definition PCA9534_SetAddressI2C (Handler : pointer) (Address : uint8_t)
  : M PCA9534_Result_t :=
  if 7 <? Address then ret PCA9534_INVALID_PARAM
  else
    h <- deref Handler ;;
    if Device h =? PCA9534_DEVICE_PCA9534 then
      store Handler (mkHandler (Device h)
                               (u8 (Z.lor PCA9534_I2C_ADDRESS_BASE Address))
                               (Platform h)) ;;
      ret PCA9534_OK
    else if Device h =? PCA9534_DEVICE_PCA9534A then
      store Handler (mkHandler (Device h)
                               (u8 (Z.lor PCA9534A_I2C_ADDRESS_BASE Address))
                               (Platform h)) ;;
      ret PCA9534_OK
    else ret PCA9534_INVALID_PARAM.

Definition PCA9534_Init (Handler : pointer) (Device_ : PCA9534_Device_t)
           (Address : uint8_t) : M PCA9534_Result_t :=
  match Handler with
  | NULL => ret PCA9534_INVALID_PARAM
  | VALID =>
    if negb (Device_ =? PCA9534_DEVICE_PCA9534)
       && negb (Device_ =? PCA9534_DEVICE_PCA9534A)
    then ret PCA9534_INVALID_PARAM
    else
      h <- deref Handler ;;
      store Handler (mkHandler Device_ (AddressI2C h) (Platform h)) ;;
      r <- PCA9534_SetAddressI2C Handler Address ;;
      if negb (Result_eqb r PCA9534_OK) then ret PCA9534_INVALID_PARAM
      else
        h <- deref Handler ;;
        if is_null (Send (Platform h)) || is_null (Receive (Platform h))
        then ret PCA9534_INVALID_PARAM
        else
          failed <- (if is_null (Init (Platform h)) then ret false
                     else r <- call_InitDeinit EvInit (Init (Platform h)) ;;
                          ret (r <? 0)) ;;
          if failed then ret PCA9534_FAIL
          else
            r <- PCA9534_WriteReg Handler PCA9534_REG_OUTPUT_PORT 0xFF ;;
            if negb (Result_eqb r PCA9534_OK) then ret PCA9534_FAIL
            else
              r <- PCA9534_WriteReg Handler PCA9534_REG_POLARITY_INVERT 0x00 ;;
              if negb (Result_eqb r PCA9534_OK) then ret PCA9534_FAIL
              else
                r <- PCA9534_WriteReg Handler PCA9534_REG_CONFIGURATION 0xFF ;;
                if negb (Result_eqb r PCA9534_OK) then ret PCA9534_FAIL
                else ret PCA9534_OK
  end.

Definition PCA9534_DeInit (Handler : pointer) : M PCA9534_Result_t :=
  match Handler with
  | NULL => ret PCA9534_INVALID_PARAM
  | VALID =>
    h <- deref Handler ;;
    if is_null (DeInit (Platform h)) then ret PCA9534_OK
    else
      r <- call_InitDeinit EvDeInit (DeInit (Platform h)) ;;
      ret (if 0 <=? r then PCA9534_OK else PCA9534_FAIL)
  end.

Definition PCA9534_SetDir (Handler : pointer) (Dir : uint8_t)
  : M PCA9534_Result_t :=
  let Dir := u8 (Z.lnot Dir) in
  r <- PCA9534_WriteReg Handler PCA9534_REG_CONFIGURATION Dir ;;
  if negb (Result_eqb r PCA9534_OK) then ret PCA9534_FAIL
  else ret PCA9534_OK.

Definition PCA9534_SetDirOne (Handler : pointer) (Pos Dir : uint8_t)
  : M PCA9534_Result_t :=
  if 7 <? Pos then ret PCA9534_INVALID_PARAM
  else
    let Reg := 0 in
    rr <- PCA9534_ReadReg Handler PCA9534_REG_CONFIGURATION Reg ;;
    let Reg := snd rr in
    if negb (Result_eqb (fst rr) PCA9534_OK) then ret PCA9534_FAIL
    else
      let Reg := if negb (Dir =? 0)
                 then u8 (Z.land Reg (Z.lnot (Z.shiftl 1 Pos)))
                 else u8 (Z.lor Reg (Z.shiftl 1 Pos)) in
      PCA9534_SetDir Handler Reg.

Definition PCA9534_Read (Handler : pointer) (Data : pointer)
  : M PCA9534_Result_t :=
  match Data with
  | NULL => ret PCA9534_INVALID_PARAM
  | VALID =>
    d <- deref_data Data ;;
    rr <- PCA9534_ReadReg Handler PCA9534_REG_INPUT_PORT d ;;
    store_data Data (snd rr) ;;
    if negb (Result_eqb (fst rr) PCA9534_OK) then ret PCA9534_FAIL
    else ret PCA9534_OK
  end.

Definition PCA9534_Write (Handler : pointer) (Data : uint8_t)
  : M PCA9534_Result_t :=
  r <- PCA9534_WriteReg Handler PCA9534_REG_OUTPUT_PORT Data ;;
  if negb (Result_eqb r PCA9534_OK) then ret PCA9534_FAIL
  else ret PCA9534_OK.

Definition PCA9534_WriteOne (Handler : pointer) (Pos Value : uint8_t)
  : M PCA9534_Result_t :=
  if 7 <? Pos then ret PCA9534_INVALID_PARAM
  else
    let Reg := 0 in
    rr <- PCA9534_ReadReg Handler PCA9534_REG_OUTPUT_PORT Reg ;;
    let Reg := snd rr in
    if negb (Result_eqb (fst rr) PCA9534_OK) then ret PCA9534_FAIL
    else
      let Reg := if negb (Value =? 0)
                 then u8 (Z.lor Reg (Z.shiftl 1 Pos))
                 else u8 (Z.land Reg (Z.lnot (Z.shiftl 1 Pos))) in
      PCA9534_Write Handler Reg.

Definition PCA9534_Toggle (Handler : pointer) (Mask : uint8_t)
  : M PCA9534_Result_t :=
  let Reg := 0 in
  rr <- PCA9534_ReadReg Handler PCA9534_REG_OUTPUT_PORT Reg ;;
  let Reg := snd rr in
  if negb (Result_eqb (fst rr) PCA9534_OK) then ret PCA9534_FAIL
  else
    let Reg := u8 (Z.lxor Reg Mask) in
    PCA9534_Write Handler Reg.

Definition PCA9534_ToggleOne (Handler : pointer) (Pos : uint8_t)
  : M PCA9534_Result_t :=
  if 7 <? Pos then ret PCA9534_INVALID_PARAM
  else
    let Mask := u8 (Z.shiftl 1 Pos) in
    PCA9534_Toggle Handler Mask.

(** ** The public API as a data type *)

Inductive PublicOp : Set :=
| OpInit (Device_ : PCA9534_Device_t) (Address : uint8_t)
| OpDeInit
| OpSetAddressI2C (Address : uint8_t)
| OpSetDir (Dir : uint8_t)
| OpSetDirOne (Pos Dir : uint8_t)
| OpRead (Data : pointer)
| OpWrite (Data : uint8_t)
| OpWriteOne (Pos Value : uint8_t)
| OpToggle (Mask : uint8_t)
| OpToggleOne (Pos : uint8_t).

Definition exec (Handler : pointer) (op : PublicOp) : M PCA9534_Result_t :=
  match op with
  | OpInit d a => PCA9534_Init Handler d a
  | OpDeInit => PCA9534_DeInit Handler
  | OpSetAddressI2C a => PCA9534_SetAddressI2C Handler a
  | OpSetDir d => PCA9534_SetDir Handler d
  | OpSetDirOne p d => PCA9534_SetDirOne Handler p d
  | OpRead p => PCA9534_Read Handler p
  | OpWrite d => PCA9534_Write Handler d
  | OpWriteOne p v => PCA9534_WriteOne Handler p v
  | OpToggle m => PCA9534_Toggle Handler m
  | OpToggleOne p => PCA9534_ToggleOne Handler p
  end.

(** A state in which both mandatory platform functions are linked. *)
Definition linked (s : State) : Prop :=
  exists send recv,
    Send (Platform (hdl s)) = Some send /\
    Receive (Platform (hdl s)) = Some recv.

End Driver.

Arguments mkPlatform {World}.
Arguments Init {World}.
Arguments DeInit {World}.
Arguments Send {World}.
Arguments Receive {World}.
Arguments mkHandler {World}.
Arguments Device {World}.
Arguments AddressI2C {World}.
Arguments Platform {World}.
Arguments mkState {World}.
Arguments hdl {World}.
Arguments data {World}.
Arguments world {World}.
Arguments bus {World}.
Arguments ret {World A}.
Arguments bind {World A B}.
Arguments deref {World}.
Arguments store {World}.
Arguments deref_data {World}.
Arguments store_data {World}.
Arguments call_InitDeinit {World}.
Arguments call_Send {World}.
Arguments call_Receive {World}.
Arguments PCA9534_WriteReg {World}.
Arguments PCA9534_ReadReg {World}.
Arguments PCA9534_SetAddressI2C {World}.
Arguments PCA9534_Init {World}.
Arguments PCA9534_DeInit {World}.
Arguments PCA9534_SetDir {World}.
Arguments PCA9534_SetDirOne {World}.
Arguments PCA9534_Read {World}.
Arguments PCA9534_Write {World}.
Arguments PCA9534_WriteOne {World}.
Arguments PCA9534_Toggle {World}.
Arguments PCA9534_ToggleOne {World}.
Arguments exec {World}.
Arguments linked {World}.

(** ** Classification of the public operations *)

(** The operations that only move a byte to or from the port registers. *)
Definition is_port_op (op : PublicOp) : bool :=
  match op with
  | OpRead _ | OpWrite _ | OpWriteOne _ _ | OpToggle _ => true
  | _ => false
  end.

(** The operations that assign to the handler: [PCA9534_Init] and
    [PCA9534_SetAddressI2C]. *)
Definition writes_handler (op : PublicOp) : bool :=
  match op with
  | OpInit _ _ | OpSetAddressI2C _ => true
  | _ => false
  end.

Definition is_read_op (op : PublicOp) : bool :=
  match op with
  | OpRead _ => true
  | _ => false
  end.

(** A register write: a send of a register address and a data byte. *)
Definition is_reg_write (e : BusEvent) : bool :=
  match e with
  | EvSend _ [_; _] _ _ => true
  | _ => false
  end.

(** Every call but the last one of a log succeeded. *)
Fixpoint fails_only_last (evs : list BusEvent) : bool :=
  match evs with
  | [] => true
  | e :: tl =>
      match tl with
      | [] => true
      | _ :: _ => (0 <=? ev_ret e) && fails_only_last tl
      end
  end.

(** The three register writes of [PCA9534_Init], as bytes on the bus. *)
Definition init_writes (a : uint8_t) : list (uint8_t * list uint8_t) :=
  [ (a, [PCA9534_REG_OUTPUT_PORT; 0xFF]);
    (a, [PCA9534_REG_POLARITY_INVERT; 0x00]);
    (a, [PCA9534_REG_CONFIGURATION; 0xFF]) ].

(** ** A simulated device

    The chip at the other end of the bus, following the register map and
    the wire format of the part: it answers at one slave address, a first
    sent byte selects the register, a second one is stored in it (the
    input port is read-only), and a one-byte receive returns the selected
    register.  A transfer to another address is not acknowledged ([-3]),
    a malformed one fails ([-1]). *)

Record SimDevice : Set := mkSim {
  sim_address : Z;
  sim_pointer : Z;
  sim_input : Z;
  sim_output : Z;
  sim_polarity : Z;
  sim_config : Z
}.

Definition sim_select (r : Z) (d : SimDevice) : SimDevice :=
  mkSim (sim_address d) r (sim_input d) (sim_output d) (sim_polarity d)
        (sim_config d).

Definition sim_write (r v : Z) (d : SimDevice) : SimDevice :=
  if r =? PCA9534_REG_OUTPUT_PORT then
    mkSim (sim_address d) r (sim_input d) v (sim_polarity d) (sim_config d)
  else if r =? PCA9534_REG_POLARITY_INVERT then
    mkSim (sim_address d) r (sim_input d) (sim_output d) v (sim_config d)
  else if r =? PCA9534_REG_CONFIGURATION then
    mkSim (sim_address d) r (sim_input d) (sim_output d) (sim_polarity d) v
  else sim_select r d.

Definition sim_selected (d : SimDevice) : Z :=
  if sim_pointer d =? PCA9534_REG_INPUT_PORT then sim_input d
  else if sim_pointer d =? PCA9534_REG_OUTPUT_PORT then sim_output d
  else if sim_pointer d =? PCA9534_REG_POLARITY_INVERT then sim_polarity d
  else sim_config d.

Definition valid_reg (r : Z) : bool := (0 <=? r) && (r <=? 3).

Definition sim_Send : PCA9534_Platform_Send_t SimDevice :=
  fun Address Data Len d =>
    if Address =? sim_address d then
      match Data with
      | [r] => if (Len =? 1) && valid_reg r then (0, sim_select r d) else (-1, d)
      | [r; v] => if (Len =? 2) && valid_reg r then (0, sim_write r v d) else (-1, d)
      | _ => (-1, d)
      end
    else (-3, d).

Definition sim_Receive : PCA9534_Platform_Receive_t SimDevice :=
  fun Address Data Len d =>
    if Address =? sim_address d then
      match Data with
      | [_] => if Len =? 1 then (0, [sim_selected d], d) else (-1, Data, d)
      | _ => (-1, Data, d)
      end
    else (-3, Data, d).

Definition sim_Platform : PCA9534_Platform_t SimDevice :=
  mkPlatform None None (Some sim_Send) (Some sim_Receive).

(** A platform layer with all four functions linked. *)
Definition sim_Platform_full : PCA9534_Platform_t SimDevice :=
  mkPlatform (Some (fun d => (0, d))) (Some (fun d => (0, d)))
             (Some sim_Send) (Some sim_Receive).

(** The device after power-on reset, answering at address [a]: outputs
    high, no polarity inversion, all pins inputs. *)
Definition sim_reset (a : Z) : SimDevice := mkSim a 0 0x00 0xFF 0x00 0xFF.

(** A program state: handler for the PCA9534 at address [0x23] (address
    pins 3), the simulated device [d] on the bus, an empty log. *)
Definition sim_state (d : SimDevice) : State SimDevice :=
  mkState (mkHandler PCA9534_DEVICE_PCA9534 0x23 sim_Platform) 0 d [].

(** ** Linking the platform layer ([PCA9534.h] macros) *)

(** [(HANDLER)->Platform.Init = FUNC] *)
Definition PCA9534_PLATFORM_LINK_INIT {World : Type} (HANDLER : pointer)
           (FUNC : option (PCA9534_Platform_InitDeinit_t World))
  : M World unit :=
  bind (deref HANDLER) (fun h =>
    store HANDLER
          (mkHandler (Device h) (AddressI2C h)
                     (mkPlatform FUNC (DeInit (Platform h))
                                 (Send (Platform h)) (Receive (Platform h))))).

(** [(HANDLER)->Platform.DeInit = FUNC] *)
Definition PCA9534_PLATFORM_LINK_DEINIT {World : Type} (HANDLER : pointer)
           (FUNC : option (PCA9534_Platform_InitDeinit_t World))
  : M World unit :=
  bind (deref HANDLER) (fun h =>
    store HANDLER
          (mkHandler (Device h) (AddressI2C h)
                     (mkPlatform (Init (Platform h)) FUNC
                                 (Send (Platform h)) (Receive (Platform h))))).

(** [(HANDLER)->Platform.Send = FUNC] *)
Definition PCA9534_PLATFORM_LINK_SEND {World : Type} (HANDLER : pointer)
           (FUNC : option (PCA9534_Platform_Send_t World))
  : M World unit :=
  bind (deref HANDLER) (fun h =>
    store HANDLER
          (mkHandler (Device h) (AddressI2C h)
                     (mkPlatform (Init (Platform h)) (DeInit (Platform h))
                                 FUNC (Receive (Platform h))))).

(** [(HANDLER)->Platform.Receive = FUNC] *)
Definition PCA9534_PLATFORM_LINK_RECEIVE {World : Type} (HANDLER : pointer)
           (FUNC : option (PCA9534_Platform_Receive_t World))
  : M World unit :=
  bind (deref HANDLER) (fun h =>
    store HANDLER
          (mkHandler (Device h) (AddressI2C h)
                     (mkPlatform (Init (Platform h)) (DeInit (Platform h))
                                 (Send (Platform h)) FUNC))).

(** ** Observations on handlers, arguments and logs *)

(** The handler holds a device tag and the address resolved for it:
    base address plus the three address pins. *)
Definition resolved {World : Type} (h : PCA9534_Handler_t World) : Prop :=
  exists k, 0 <= k <= 7 /\
    ((Device h = PCA9534_DEVICE_PCA9534
      /\ AddressI2C h = PCA9534_I2C_ADDRESS_BASE + k) \/
     (Device h = PCA9534_DEVICE_PCA9534A
      /\ AddressI2C h = PCA9534A_I2C_ADDRESS_BASE + k)).

Definition known_device (d : PCA9534_Device_t) : bool :=
  (d =? PCA9534_DEVICE_PCA9534) || (d =? PCA9534_DEVICE_PCA9534A).

(** The parameter checks of the public functions, gathered. *)
Definition invalid_args {World : Type} (s : State World) (op : PublicOp)
  : bool :=
  match op with
  | OpInit d a =>
      negb (known_device d) || (7 <? a)
      || is_null (Send (Platform (hdl s)))
      || is_null (Receive (Platform (hdl s)))
  | OpSetAddressI2C a => (7 <? a) || negb (known_device (Device (hdl s)))
  | OpSetDirOne Pos _ | OpWriteOne Pos _ | OpToggleOne Pos => 7 <? Pos
  | OpRead NULL => true
  | _ => false
  end.

(** The operations that return before they dereference the handler. *)
Definition returns_before_deref (op : PublicOp) : bool :=
  match op with
  | OpInit _ _ | OpDeInit => true
  | OpSetAddressI2C a => 7 <? a
  | OpSetDirOne Pos _ | OpWriteOne Pos _ | OpToggleOne Pos => 7 <? Pos
  | OpRead NULL => true
  | _ => false
  end.

(** The device registers an operation addresses. *)
Definition op_registers (op : PublicOp) : list Z :=
  match op with
  | OpInit _ _ =>
      [PCA9534_REG_OUTPUT_PORT; PCA9534_REG_POLARITY_INVERT;
       PCA9534_REG_CONFIGURATION]
  | OpRead _ => [PCA9534_REG_INPUT_PORT]
  | OpWrite _ | OpWriteOne _ _ | OpToggle _ | OpToggleOne _ =>
      [PCA9534_REG_OUTPUT_PORT]
  | OpSetDir _ | OpSetDirOne _ _ => [PCA9534_REG_CONFIGURATION]
  | OpDeInit | OpSetAddressI2C _ => []
  end.

(** A send is a register address from [regs] alone ([Len = 1]) or with one
    data byte ([Len = 2]); the input port is never written. *)
Definition transfer_ok (regs : list Z) (Data : list Z) (Len : Z) : bool :=
  match Data with
  | [reg] => (Len =? 1) && existsb (Z.eqb reg) regs
  | [reg; _] =>
      (Len =? 2) && existsb (Z.eqb reg) regs
      && negb (reg =? PCA9534_REG_INPUT_PORT)
  | _ => false
  end.

Definition is_OpInit (op : PublicOp) : bool :=
  match op with OpInit _ _ => true | _ => false end.

Definition is_OpDeInit (op : PublicOp) : bool :=
  match op with OpDeInit => true | _ => false end.

(** What a platform call made by [op] for the slave address [a] looks
    like. *)
Definition event_ok (a : Z) (op : PublicOp) (e : BusEvent) : Prop :=
  match e with
  | EvSend a' d len _ => a' = a /\ transfer_ok (op_registers op) d len = true
  | EvReceive a' len _ _ => a' = a /\ len = 1
  | EvInit _ => is_OpInit op = true
  | EvDeInit _ => is_OpDeInit op = true
  end.

(** A successful send of a register address alone. *)
Definition selects (e : BusEvent) : Prop :=
  match e with
  | EvSend _ [_] _ r => 0 <= r
  | _ => False
  end.

(** Every receive of the log comes right after a successful send of a
    register address; [prev] is the call before the log. *)
Fixpoint receives_selected (prev : option BusEvent) (evs : list BusEvent)
  : Prop :=
  match evs with
  | [] => True
  | e :: tl =>
      match e with
      | EvReceive _ _ _ _ =>
          match prev with
          | Some p => selects p
          | None => False
          end
      | _ => True
      end /\ receives_selected (Some e) tl
  end.

(** The handler talks to the simulated device: the transport is the
    device's, and the handler holds the device's address. *)
Definition on_bus (s : State SimDevice) : Prop :=
  Send (Platform (hdl s)) = Some sim_Send /\
  Receive (Platform (hdl s)) = Some sim_Receive /\
  AddressI2C (hdl s) = sim_address (world s).

(** A platform layer whose [Init] fails. *)
Definition sim_Platform_bad_init : PCA9534_Platform_t SimDevice :=
  mkPlatform (Some (fun d => (-1, d))) None (Some sim_Send) (Some sim_Receive).

(** ** Bytes and bits *)

Lemma u8_small (x : Z) : 0 <= x < 256 -> u8 x = x.
Proof. intros H. unfold u8. apply Z.mod_small. exact H. Qed.

Lemma u8_range (x : Z) : 0 <= u8 x < 256.
Proof. unfold u8. apply Z.mod_pos_bound. lia. Qed.

Lemma u8_testbit (x i : Z) :
  Z.testbit (u8 x) i = (i <? 8) && Z.testbit x i.
Proof.
  unfold u8. change 256 with (2 ^ 8).
  apply Z.testbit_mod_pow2. lia.
Qed.

Lemma byte_high_bits (x i : Z) :
  0 <= x < 256 -> 8 <= i -> Z.testbit x i = false.
Proof.
  intros Hx Hi. rewrite <- (u8_small x Hx), u8_testbit.
  replace (i <? 8) with false by (symmetry; apply Z.ltb_ge; lia).
  reflexivity.
Qed.

(** A number whose bits from 8 upwards are clear is a byte. *)
Lemma u8_fix (x : Z) :
  (forall i, 8 <= i -> Z.testbit x i = false) -> u8 x = x.
Proof.
  intros H. apply Z.bits_inj'. intros i _.
  rewrite u8_testbit. destruct (i <? 8) eqn:E; simpl.
  - reflexivity.
  - symmetry. apply H. apply Z.ltb_ge. exact E.
Qed.

Lemma bit_testbit (Pos i : Z) :
  0 <= Pos -> Z.testbit (Z.shiftl 1 Pos) i = (Pos =? i).
Proof.
  intros H. rewrite Z.shiftl_1_l. apply Z.pow2_bits_eqb. exact H.
Qed.

Lemma u8_bit (Pos : Z) : 0 <= Pos <= 7 -> u8 (Z.shiftl 1 Pos) = Z.shiftl 1 Pos.
Proof.
  intros H. apply u8_fix. intros i Hi. rewrite bit_testbit by lia.
  apply Z.eqb_neq. lia.
Qed.

Lemma u8_set_bit (R Pos : Z) :
  0 <= R < 256 -> 0 <= Pos <= 7 ->
  u8 (Z.lor R (Z.shiftl 1 Pos)) = Z.lor R (Z.shiftl 1 Pos).
Proof.
  intros HR HP. apply u8_fix. intros i Hi.
  rewrite Z.lor_spec, bit_testbit, (byte_high_bits R i) by lia.
  apply Z.eqb_neq. lia.
Qed.

Lemma u8_clear_bit (R Pos : Z) :
  0 <= R < 256 ->
  u8 (Z.land R (Z.lnot (Z.shiftl 1 Pos))) = Z.land R (Z.lnot (Z.shiftl 1 Pos)).
Proof.
  intros HR. apply u8_fix. intros i Hi.
  rewrite Z.land_spec, (byte_high_bits R i) by lia. reflexivity.
Qed.

Lemma u8_lnot (d : Z) : 0 <= d < 256 -> u8 (Z.lnot d) = 255 - d.
Proof.
  intros H. unfold u8, Z.lnot.
  symmetry. apply (Z.mod_unique_pos _ _ (-1)); lia.
Qed.

Lemma u8_lxor (a b : Z) :
  0 <= a < 256 -> 0 <= b < 256 -> u8 (Z.lxor a b) = Z.lxor a b.
Proof.
  intros Ha Hb. apply u8_fix. intros i Hi.
  rewrite Z.lxor_spec, (byte_high_bits a i), (byte_high_bits b i) by lia.
  reflexivity.
Qed.

Lemma lxor_twice (a b : Z) : Z.lxor (Z.lxor a b) b = a.
Proof. rewrite Z.lxor_assoc, Z.lxor_nilpotent, Z.lxor_0_r. reflexivity. Qed.

Lemma u8_base_pins (base pins : Z) :
  0 <= base < 256 -> 0 <= pins <= 7 -> u8 (Z.lor base pins) = Z.lor base pins.
Proof.
  intros Hb Hp. apply u8_fix. intros i Hi.
  rewrite Z.lor_spec, (byte_high_bits base i), (byte_high_bits pins i) by lia.
  reflexivity.
Qed.

(** The complement of a byte, bit by bit. *)
Lemma complement_testbit (d i : Z) :
  0 <= d < 256 -> 0 <= i < 8 ->
  Z.testbit (255 - d) i = negb (Z.testbit d i).
Proof.
  intros Hd Hi. rewrite <- (u8_lnot d Hd), u8_testbit.
  replace (i <? 8) with true by (symmetry; apply Z.ltb_lt; lia).
  simpl. apply Z.lnot_spec. lia.
Qed.

(** ** Running the private functions *)

Section DriverProofs.

Variable World : Type.
Implicit Types (s : State World) (p : pointer).

Lemma WriteReg_run s send reg d :
  Send (Platform (hdl s)) = Some send ->
  PCA9534_WriteReg VALID reg d s =
    let '(r, w) := send (AddressI2C (hdl s)) [reg; d] 2 (world s) in
    Some (if r <? 0 then PCA9534_FAIL else PCA9534_OK,
          mkState (hdl s) (data s) w
                  (bus s ++ [EvSend (AddressI2C (hdl s)) [reg; d] 2 r])).
Proof.
  intros HS. unfold PCA9534_WriteReg, bind, deref, call_Send.
  rewrite HS. destruct (send _ _ _ _) as [r w].
  destruct (r <? 0); reflexivity.
Qed.

Lemma ReadReg_run s send recv reg d0 :
  Send (Platform (hdl s)) = Some send ->
  Receive (Platform (hdl s)) = Some recv ->
  PCA9534_ReadReg VALID reg d0 s =
    let a := AddressI2C (hdl s) in
    let '(r1, w1) := send a [reg] 1 (world s) in
    if r1 <? 0 then
      Some ((PCA9534_FAIL, d0),
            mkState (hdl s) (data s) w1 (bus s ++ [EvSend a [reg] 1 r1]))
    else
      let '(r2, buf, w2) := recv a [d0] 1 w1 in
      Some ((if r2 <? 0 then PCA9534_FAIL else PCA9534_OK, nth 0 buf d0),
            mkState (hdl s) (data s) w2
                    (bus s ++ [EvSend a [reg] 1 r1; EvReceive a 1 r2 buf])).
Proof.
  intros HS HR. unfold PCA9534_ReadReg, bind, deref, call_Send, call_Receive.
  rewrite HS. cbv zeta. destruct (send _ _ _ _) as [r1 w1].
  destruct (r1 <? 0); [reflexivity|].
  cbn [hdl world data bus]. rewrite HR.
  destruct (recv _ _ _ _) as [[r2 buf] w2].
  cbn [fst snd]. rewrite <- app_assoc.
  destruct (r2 <? 0); reflexivity.
Qed.

(** *** Logs *)

Lemma fails_only_last_sound (evs pre post : list BusEvent) (e : BusEvent) :
  fails_only_last evs = true ->
  evs = pre ++ e :: post -> ev_ret e < 0 -> post = [].
Proof.
  revert evs. induction pre as [|x pre IH]; intros evs Hf He Hr; subst evs.
  - destruct post as [|y post]; [reflexivity|].
    simpl in Hf. apply andb_true_iff in Hf. destruct Hf as [Hf _].
    apply Z.leb_le in Hf. lia.
  - apply (IH (pre ++ e :: post)); [|reflexivity|exact Hr].
    destruct pre; simpl in Hf |- *;
      apply andb_true_iff in Hf; destruct Hf as [_ Hf]; exact Hf.
Qed.

(** ** Address resolution *)

(** C2. For address pins in [0,7], [PCA9534_SetAddressI2C] stores
    [0x20 | pins] for the PCA9534 and [0x38 | pins] for the PCA9534A in
    [AddressI2C] and returns [PCA9534_OK]; for address pins above 7 it
    returns [PCA9534_INVALID_PARAM] and leaves the whole state, so also
    [AddressI2C], as it was; in every case the bus log and the world behind
    it are untouched (no platform call is made). *)
Theorem PCA9534_SetAddressI2C_spec s (addressPins : uint8_t) :
  (0 <= addressPins <= 7 ->
   (Device (hdl s) = PCA9534_DEVICE_PCA9534 ->
    PCA9534_SetAddressI2C VALID addressPins s =
      Some (PCA9534_OK,
            mkState (mkHandler (Device (hdl s)) (Z.lor 0x20 addressPins)
                               (Platform (hdl s)))
                    (data s) (world s) (bus s)))
   /\
   (Device (hdl s) = PCA9534_DEVICE_PCA9534A ->
    PCA9534_SetAddressI2C VALID addressPins s =
      Some (PCA9534_OK,
            mkState (mkHandler (Device (hdl s)) (Z.lor 0x38 addressPins)
                               (Platform (hdl s)))
                    (data s) (world s) (bus s))))
  /\
  (7 < addressPins ->
   forall p, PCA9534_SetAddressI2C p addressPins s
             = Some (PCA9534_INVALID_PARAM, s))
  /\
  (forall p r s', PCA9534_SetAddressI2C p addressPins s = Some (r, s') ->
                  bus s' = bus s /\ world s' = world s).
Proof.
  split; [|split].
  - intros Hp.
    assert (Hlt : (7 <? addressPins) = false) by (apply Z.ltb_ge; lia).
    split; intros Hd; unfold PCA9534_SetAddressI2C, bind, deref, store, ret;
      rewrite Hlt, Hd; cbn [Z.eqb PCA9534_DEVICE_PCA9534 PCA9534_DEVICE_PCA9534A
                             Pos.eqb];
      rewrite <- Hd.
    + unfold PCA9534_I2C_ADDRESS_BASE. rewrite u8_base_pins by lia. reflexivity.
    + unfold PCA9534A_I2C_ADDRESS_BASE. rewrite u8_base_pins by lia. reflexivity.
  - intros Hp p. unfold PCA9534_SetAddressI2C.
    replace (7 <? addressPins) with true by (symmetry; apply Z.ltb_lt; lia).
    reflexivity.
  - intros p r s'. unfold PCA9534_SetAddressI2C, bind, deref, store, ret.
    destruct (7 <? addressPins); [intros [= _ <-]; auto|].
    destruct p; [discriminate|].
    destruct (Device (hdl s) =? PCA9534_DEVICE_PCA9534);
      [intros [= _ <-]; auto|].
    destruct (Device (hdl s) =? PCA9534_DEVICE_PCA9534A);
      intros [= _ <-]; auto.
Qed.

(** ** Direction *)

(** C4. For every 8-bit [dirMask], [PCA9534_SetDir] makes exactly one
    platform call: a send of the two bytes [0x03] (configuration register)
    and the bitwise complement of [dirMask], that is [255 - dirMask], each
    of whose 8 bits is the negation of the bit of [dirMask]; it returns
    [PCA9534_OK] when the send succeeds and [PCA9534_FAIL] when it reports
    a negative value. *)
Theorem PCA9534_SetDir_spec s send (dirMask : uint8_t) :
  0 <= dirMask < 256 ->
  Send (Platform (hdl s)) = Some send ->
  exists (byte : uint8_t) (r : int8_t) (w : World),
    byte = 255 - dirMask /\
    (forall i, 0 <= i < 8 -> Z.testbit byte i = negb (Z.testbit dirMask i)) /\
    send (AddressI2C (hdl s)) [PCA9534_REG_CONFIGURATION; byte] 2 (world s)
      = (r, w) /\
    PCA9534_SetDir VALID dirMask s =
      Some (if r <? 0 then PCA9534_FAIL else PCA9534_OK,
            mkState (hdl s) (data s) w
                    (bus s ++ [EvSend (AddressI2C (hdl s))
                                      [PCA9534_REG_CONFIGURATION; byte] 2 r])).
Proof.
  intros Hd HS.
  destruct (send (AddressI2C (hdl s)) [PCA9534_REG_CONFIGURATION; 255 - dirMask]
                 2 (world s)) as [r w] eqn:E.
  exists (255 - dirMask), r, w.
  split; [reflexivity|]. split; [intros i Hi; apply complement_testbit; lia|].
  split; [exact E|].
  unfold PCA9534_SetDir, bind. rewrite (WriteReg_run _ send) by exact HS.
  rewrite u8_lnot by exact Hd. rewrite E.
  destruct (r <? 0); reflexivity.
Qed.

(** ** Toggling *)

(** C7. For every position in [0,7], every handler pointer and every
    state, [PCA9534_ToggleOne Pos] and [PCA9534_Toggle (1 << Pos)] have
    the same outcome: the same result and the same final state, whose bus
    log holds every send and receive with its bytes. *)
Theorem PCA9534_ToggleOne_is_Toggle p s (Pos : uint8_t) :
  0 <= Pos <= 7 ->
  PCA9534_ToggleOne p Pos s = PCA9534_Toggle p (Z.shiftl 1 Pos) s.
Proof.
  intros HP. unfold PCA9534_ToggleOne.
  replace (7 <? Pos) with false by (symmetry; apply Z.ltb_ge; lia).
  cbv zeta. rewrite u8_bit by exact HP. reflexivity.
Qed.

(** ** Single-bit read-modify-write *)

(** C5. For every position in [0,7] and every byte [R] that the read of
    the output-port register delivers, [PCA9534_WriteOne] sends the
    register address [0x01], receives [R], and sends [0x01] with
    [R | (1 << Pos)] when [Value] is nonzero and with [R & ~(1 << Pos)]
    when it is zero; from [R = 0x00] and [Value = 1] the byte written is
    [1 << Pos], from [R = 0xFF] and [Value = 0] it is
    [0xFF & ~(1 << Pos)]. *)
Theorem PCA9534_WriteOne_spec s send recv (Pos Value R : uint8_t)
        (r1 r2 : int8_t) (w1 w2 : World) :
  0 <= Pos <= 7 -> 0 <= R < 256 ->
  Send (Platform (hdl s)) = Some send ->
  Receive (Platform (hdl s)) = Some recv ->
  send (AddressI2C (hdl s)) [PCA9534_REG_OUTPUT_PORT] 1 (world s) = (r1, w1) ->
  0 <= r1 ->
  recv (AddressI2C (hdl s)) [0] 1 w1 = (r2, [R], w2) ->
  0 <= r2 ->
  exists (R' : uint8_t) (r3 : int8_t) (w3 : World),
    R' = (if Value =? 0 then Z.land R (Z.lnot (Z.shiftl 1 Pos))
          else Z.lor R (Z.shiftl 1 Pos)) /\
    send (AddressI2C (hdl s)) [PCA9534_REG_OUTPUT_PORT; R'] 2 w2 = (r3, w3) /\
    PCA9534_WriteOne VALID Pos Value s =
      Some (if r3 <? 0 then PCA9534_FAIL else PCA9534_OK,
            mkState (hdl s) (data s) w3
                    (bus s ++
                     [EvSend (AddressI2C (hdl s)) [PCA9534_REG_OUTPUT_PORT] 1 r1;
                      EvReceive (AddressI2C (hdl s)) 1 r2 [R];
                      EvSend (AddressI2C (hdl s))
                             [PCA9534_REG_OUTPUT_PORT; R'] 2 r3])) /\
    (R = 0x00 -> Value = 1 -> R' = Z.shiftl 1 Pos) /\
    (R = 0xFF -> Value = 0 -> R' = Z.land 0xFF (Z.lnot (Z.shiftl 1 Pos))).
Proof.
  intros HP HR HS HRc E1 Hr1 E2 Hr2.
  set (R' := if Value =? 0 then Z.land R (Z.lnot (Z.shiftl 1 Pos))
             else Z.lor R (Z.shiftl 1 Pos)).
  destruct (send (AddressI2C (hdl s)) [PCA9534_REG_OUTPUT_PORT; R'] 2 w2)
    as [r3 w3] eqn:E3.
  exists R', r3, w3.
  split; [reflexivity|]. split; [exact E3|]. split; [|split].
  - unfold PCA9534_WriteOne, bind.
    replace (7 <? Pos) with false by (symmetry; apply Z.ltb_ge; lia).
    rewrite (ReadReg_run _ send recv) by assumption.
    cbv zeta. rewrite E1.
    replace (r1 <? 0) with false by (symmetry; apply Z.ltb_ge; lia).
    rewrite E2.
    replace (r2 <? 0) with false by (symmetry; apply Z.ltb_ge; lia).
    cbn [fst snd nth Result_eqb negb].
    unfold PCA9534_Write, bind.
    rewrite (WriteReg_run _ send) by exact HS.
    cbn [hdl data world bus].
    replace (if negb (Value =? 0) then u8 (Z.lor R (Z.shiftl 1 Pos))
             else u8 (Z.land R (Z.lnot (Z.shiftl 1 Pos)))) with R'.
    + rewrite E3. rewrite <- app_assoc. destruct (r3 <? 0); reflexivity.
    + unfold R'. destruct (Value =? 0); cbn [negb].
      * rewrite u8_clear_bit by exact HR. reflexivity.
      * rewrite u8_set_bit by assumption. reflexivity.
  - intros -> ->. unfold R'. cbn [Z.eqb]. apply Z.lor_0_l.
  - intros -> ->. reflexivity.
Qed.

(** [PCA9534_SetDirOne] hands the modified configuration byte to
    [PCA9534_SetDir], which complements it: the byte written is the
    complement of the byte read at the seven other bits, and its bit [Pos]
    is 1 when [Dir] is nonzero and 0 when [Dir] is zero. *)
Lemma PCA9534_SetDirOne_run s send recv (Pos Dir R : uint8_t)
      (r1 r2 : int8_t) (w1 w2 : World) :
  0 <= Pos <= 7 -> 0 <= R < 256 ->
  Send (Platform (hdl s)) = Some send ->
  Receive (Platform (hdl s)) = Some recv ->
  send (AddressI2C (hdl s)) [PCA9534_REG_CONFIGURATION] 1 (world s) = (r1, w1) ->
  0 <= r1 ->
  recv (AddressI2C (hdl s)) [0] 1 w1 = (r2, [R], w2) ->
  0 <= r2 ->
  exists (B : uint8_t) (r3 : int8_t) (w3 : World),
    (forall i, 0 <= i < 8 ->
       Z.testbit B i = if Pos =? i then negb (Dir =? 0)
                       else negb (Z.testbit R i)) /\
    0 <= B < 256 /\
    send (AddressI2C (hdl s)) [PCA9534_REG_CONFIGURATION; B] 2 w2 = (r3, w3) /\
    PCA9534_SetDirOne VALID Pos Dir s =
      Some (if r3 <? 0 then PCA9534_FAIL else PCA9534_OK,
            mkState (hdl s) (data s) w3
                    (bus s ++
                     [EvSend (AddressI2C (hdl s)) [PCA9534_REG_CONFIGURATION] 1 r1;
                      EvReceive (AddressI2C (hdl s)) 1 r2 [R];
                      EvSend (AddressI2C (hdl s))
                             [PCA9534_REG_CONFIGURATION; B] 2 r3])).
Proof.
  intros HP HR HS HRc E1 Hr1 E2 Hr2.
  set (B := u8 (Z.lnot (if negb (Dir =? 0)
                        then u8 (Z.land R (Z.lnot (Z.shiftl 1 Pos)))
                        else u8 (Z.lor R (Z.shiftl 1 Pos))))).
  destruct (send (AddressI2C (hdl s)) [PCA9534_REG_CONFIGURATION; B] 2 w2)
    as [r3 w3] eqn:E3.
  exists B, r3, w3.
  split; [|split; [apply u8_range|split; [exact E3|]]].
  - intros i Hi. unfold B. rewrite u8_testbit.
    replace (i <? 8) with true by (symmetry; apply Z.ltb_lt; lia).
    cbn [andb]. rewrite Z.lnot_spec by lia.
    destruct (Dir =? 0); cbn [negb].
    + rewrite u8_set_bit by assumption.
      rewrite Z.lor_spec, bit_testbit by lia.
      destruct (Pos =? i); [apply negb_false_iff, orb_true_r|].
      rewrite orb_false_r. reflexivity.
    + rewrite u8_clear_bit by exact HR.
      rewrite Z.land_spec, Z.lnot_spec, bit_testbit by lia.
      destruct (Pos =? i); cbn [negb]; [rewrite andb_false_r; reflexivity|].
      rewrite andb_true_r. reflexivity.
  - unfold PCA9534_SetDirOne, bind.
    replace (7 <? Pos) with false by (symmetry; apply Z.ltb_ge; lia).
    rewrite (ReadReg_run _ send recv) by assumption.
    cbv zeta. rewrite E1.
    replace (r1 <? 0) with false by (symmetry; apply Z.ltb_ge; lia).
    rewrite E2.
    replace (r2 <? 0) with false by (symmetry; apply Z.ltb_ge; lia).
    cbn [fst snd nth Result_eqb negb].
    unfold PCA9534_SetDir, bind.
    rewrite (WriteReg_run _ send) by exact HS.
    cbn [hdl data world bus]. fold B.
    rewrite E3. rewrite <- app_assoc. destruct (r3 <? 0); reflexivity.
Qed.

(** ** Initialisation *)

Lemma SetAddressI2C_run s (device : PCA9534_Device_t) (pins : uint8_t) :
  device = PCA9534_DEVICE_PCA9534 \/ device = PCA9534_DEVICE_PCA9534A ->
  0 <= pins <= 7 ->
  Device (hdl s) = device ->
  PCA9534_SetAddressI2C VALID pins s =
    Some (PCA9534_OK,
          mkState (mkHandler device
                     (Z.lor (if device =? PCA9534_DEVICE_PCA9534
                             then PCA9534_I2C_ADDRESS_BASE
                             else PCA9534A_I2C_ADDRESS_BASE) pins)
                     (Platform (hdl s)))
                  (data s) (world s) (bus s)).
Proof.
  intros Hd Hp HD. unfold PCA9534_SetAddressI2C, bind, deref, store, ret.
  replace (7 <? pins) with false by (symmetry; apply Z.ltb_ge; lia).
  rewrite HD.
  destruct Hd as [-> | ->]; cbn [Z.eqb PCA9534_DEVICE_PCA9534
                                 PCA9534_DEVICE_PCA9534A Pos.eqb].
  - unfold PCA9534_I2C_ADDRESS_BASE. rewrite u8_base_pins by lia. reflexivity.
  - unfold PCA9534A_I2C_ADDRESS_BASE. rewrite u8_base_pins by lia. reflexivity.
Qed.

Lemma no_failure_in (evs pre post : list BusEvent) (e : BusEvent) :
  Forall (fun x => 0 <= ev_ret x) evs ->
  evs = pre ++ e :: post -> ev_ret e < 0 -> False.
Proof.
  intros HF -> Hr. rewrite Forall_forall in HF.
  specialize (HF e (in_elt e pre post)). lia.
Qed.

Ltac ltb_facts :=
  repeat match goal with
         | H : (_ <? _) = true |- _ => apply Z.ltb_lt in H
         | H : (_ <? _) = false |- _ => apply Z.ltb_ge in H
         end.

Ltac forall_facts :=
  repeat match goal with
         | H : Forall _ (_ :: _) |- _ => inversion H; clear H; subst
         | H : Forall _ (_ ++ _) |- _ => apply Forall_app in H; destruct H
         end;
  cbn [ev_ret] in *.

(** What remains to show about a concrete log [evs] and a result [r] once
    the calls of a run are known. *)
Ltac log_abort :=
  let pre := fresh "pre" in
  let e := fresh "e" in
  let post := fresh "post" in
  let He := fresh "He" in
  let Hr := fresh "Hr" in
  intros pre e post He Hr; split;
  [ first [ reflexivity
          | exfalso; ltb_facts;
            eapply (no_failure_in _ pre post e); [|exact He|exact Hr];
            repeat constructor; cbn [ev_ret]; lia ]
  | eapply (fails_only_last_sound _ pre post e); [|exact He|exact Hr];
    ltb_facts; cbn [fails_only_last ev_ret app];
    repeat (apply andb_true_iff; split); try reflexivity;
    apply Z.leb_le; lia ].

(** C3. With a recognised device tag, address pins in [0,7] and [Send]
    and [Receive] linked, [PCA9534_Init] runs to a result.  When every
    platform call of the run succeeds, the result is [PCA9534_OK] and the
    calls are, after the optional platform [Init], exactly three sends of
    two bytes to the resolved address, in this order: [0x01 0xFF] (output
    port), [0x02 0x00] (polarity inversion), [0x03 0xFF] (configuration).
    When a call reports failure, the result is [PCA9534_FAIL] and that
    call is the last one: what was sent before it is a prefix of the three
    writes, and no write follows to undo it. *)
Theorem PCA9534_Init_spec s send recv
        (device : PCA9534_Device_t) (addressPins : uint8_t) :
  device = PCA9534_DEVICE_PCA9534 \/ device = PCA9534_DEVICE_PCA9534A ->
  0 <= addressPins <= 7 ->
  Send (Platform (hdl s)) = Some send ->
  Receive (Platform (hdl s)) = Some recv ->
  let a := Z.lor (if device =? PCA9534_DEVICE_PCA9534
                  then PCA9534_I2C_ADDRESS_BASE
                  else PCA9534A_I2C_ADDRESS_BASE) addressPins in
  exists r s' evs,
    PCA9534_Init VALID device addressPins s = Some (r, s') /\
    bus s' = bus s ++ evs /\
    (Forall (fun e => 0 <= ev_ret e) evs ->
     r = PCA9534_OK /\
     exists pre r1 r2 r3,
       evs = pre ++ [EvSend a [PCA9534_REG_OUTPUT_PORT; 0xFF] 2 r1;
                     EvSend a [PCA9534_REG_POLARITY_INVERT; 0x00] 2 r2;
                     EvSend a [PCA9534_REG_CONFIGURATION; 0xFF] 2 r3] /\
       (pre = [] \/ exists r0, pre = [EvInit r0])) /\
    (forall pre e post,
       evs = pre ++ e :: post -> ev_ret e < 0 ->
       r = PCA9534_FAIL /\ post = []) /\
    (exists k, sent evs = firstn k (init_writes a)).
Proof.
  intros Hd Hp HS HR a.
  unfold PCA9534_Init.
  replace (negb (device =? PCA9534_DEVICE_PCA9534)
           && negb (device =? PCA9534_DEVICE_PCA9534A)) with false
    by (destruct Hd as [-> | ->]; reflexivity).
  unfold bind at 1. unfold deref at 1.
  unfold bind at 1. unfold store at 1.
  unfold bind at 1.
  rewrite (SetAddressI2C_run _ device addressPins Hd Hp) by reflexivity.
  cbn [hdl data world bus Platform Result_eqb negb]. fold a.
  unfold bind at 1. unfold deref at 1. cbn [hdl Platform].
  rewrite HS, HR. cbn [is_null orb].
  set (h1 := mkHandler device a (Platform (hdl s))).
  assert (HS1 : forall d w l, Send (Platform (hdl (mkState h1 d w l))) = Some send)
    by (intros; exact HS).
  (* the platform Init, the three register writes *)
  assert (Hwrites : forall w0 pre,
    (pre = [] \/ exists r0, pre = [EvInit r0]) ->
    Forall (fun e => 0 <= ev_ret e) pre ->
    exists r s' evs,
      bind (PCA9534_WriteReg VALID PCA9534_REG_OUTPUT_PORT 255)
           (fun r =>
              if negb (Result_eqb r PCA9534_OK) then ret PCA9534_FAIL
              else
                bind (PCA9534_WriteReg VALID PCA9534_REG_POLARITY_INVERT 0)
                     (fun r =>
                        if negb (Result_eqb r PCA9534_OK) then ret PCA9534_FAIL
                        else
                          bind (PCA9534_WriteReg VALID PCA9534_REG_CONFIGURATION 255)
                               (fun r =>
                                  if negb (Result_eqb r PCA9534_OK)
                                  then ret PCA9534_FAIL
                                  else ret PCA9534_OK)))
           (mkState h1 (data s) w0 (bus s ++ pre)) = Some (r, s') /\
      bus s' = bus s ++ evs /\
      (Forall (fun e => 0 <= ev_ret e) evs ->
       r = PCA9534_OK /\
       exists pre r1 r2 r3,
         evs = pre ++ [EvSend a [PCA9534_REG_OUTPUT_PORT; 0xFF] 2 r1;
                       EvSend a [PCA9534_REG_POLARITY_INVERT; 0x00] 2 r2;
                       EvSend a [PCA9534_REG_CONFIGURATION; 0xFF] 2 r3] /\
         (pre = [] \/ exists r0, pre = [EvInit r0])) /\
      (forall pre e post,
         evs = pre ++ e :: post -> ev_ret e < 0 ->
         r = PCA9534_FAIL /\ post = []) /\
      (exists k, sent evs = firstn k (init_writes a))).
  { intros w0 pre Hpre Fpre.
    unfold bind at 1. rewrite (WriteReg_run _ send) by apply HS1.
    cbn [hdl data world bus AddressI2C h1].
    destruct (send a [PCA9534_REG_OUTPUT_PORT; 255] 2 w0) as [r1 w1].
    destruct (r1 <? 0) eqn:L1; cbn [Result_eqb negb].
    { eexists _, _, (pre ++ [_]). split; [reflexivity|].
      cbn [bus]. split; [symmetry; apply app_assoc|].
      split; [intros F; forall_facts; ltb_facts; lia|].
      split; [|exists 1%nat; destruct Hpre as [-> | [r0 ->]]; reflexivity].
      destruct Hpre as [-> | [r0 ->]]; forall_facts; log_abort. }
    unfold bind at 1. rewrite (WriteReg_run _ send) by apply HS1.
    cbn [hdl data world bus AddressI2C h1].
    destruct (send a [PCA9534_REG_POLARITY_INVERT; 0] 2 w1) as [r2 w2].
    destruct (r2 <? 0) eqn:L2; cbn [Result_eqb negb].
    { eexists _, _, (pre ++ [_; _]). split; [reflexivity|].
      cbn [bus]. split; [repeat rewrite <- app_assoc; reflexivity|].
      split; [intros F; forall_facts; ltb_facts; lia|].
      split; [|exists 2%nat; destruct Hpre as [-> | [r0 ->]]; reflexivity].
      destruct Hpre as [-> | [r0 ->]]; forall_facts; log_abort. }
    unfold bind at 1. rewrite (WriteReg_run _ send) by apply HS1.
    cbn [hdl data world bus AddressI2C h1].
    destruct (send a [PCA9534_REG_CONFIGURATION; 255] 2 w2) as [r3 w3].
    destruct (r3 <? 0) eqn:L3; cbn [Result_eqb negb].
    { eexists _, _, (pre ++ [_; _; _]). split; [reflexivity|].
      cbn [bus]. split; [repeat rewrite <- app_assoc; reflexivity|].
      split; [intros F; forall_facts; ltb_facts; lia|].
      split; [|exists 3%nat; destruct Hpre as [-> | [r0 ->]]; reflexivity].
      destruct Hpre as [-> | [r0 ->]]; forall_facts; log_abort. }
    eexists _, _, (pre ++ [_; _; _]). split; [reflexivity|].
    cbn [bus]. split; [repeat rewrite <- app_assoc; reflexivity|].
    split.
    { intros _. split; [reflexivity|]. exists pre, r1, r2, r3.
      split; [reflexivity|exact Hpre]. }
    split; [|exists 3%nat; destruct Hpre as [-> | [r0 ->]]; reflexivity].
    destruct Hpre as [-> | [r0 ->]]; forall_facts; log_abort. }
  destruct (Init (Platform (hdl s))) as [pinit|]; cbn [is_null].
  - unfold bind at 1. unfold bind at 1. unfold call_InitDeinit.
    cbn [hdl data world bus].
    destruct (pinit (world s)) as [r0 w0].
    unfold ret at 1.
    destruct (r0 <? 0) eqn:L0.
    + eexists _, _, [_]. split; [reflexivity|]. cbn [bus].
      split; [reflexivity|].
      split; [intros F; forall_facts; ltb_facts; lia|].
      split; [log_abort|exists 0%nat; reflexivity].
    + apply (Hwrites w0 [EvInit r0]); [right; eexists; reflexivity|].
      ltb_facts. repeat constructor. exact L0.
  - unfold bind at 1. unfold ret at 1.
    specialize (Hwrites (world s) [] (or_introl eq_refl) (Forall_nil _)).
    rewrite app_nil_r in Hwrites. exact Hwrites.
Qed.

(** ** Following a run case by case *)

(** The [match] at the head of a term, or of the function it applies. *)
Ltac head_match t :=
  lazymatch t with
  | match _ with _ => _ end => t
  | ?f _ => head_match f
  end.

(** The innermost scrutinee the evaluation of [t] is stuck on. *)
Ltac scrutinee t :=
  let m := head_match t in
  lazymatch m with
  | match ?x with _ => _ end =>
      match x with
      | _ => scrutinee x
      | _ => constr:(x)
      end
  end.

Ltac unfold_driver H :=
  unfold exec, PCA9534_Init, PCA9534_DeInit, PCA9534_SetAddressI2C,
    PCA9534_ToggleOne, PCA9534_Toggle, PCA9534_WriteOne, PCA9534_SetDirOne,
    PCA9534_Read, PCA9534_Write, PCA9534_SetDir,
    PCA9534_WriteReg, PCA9534_ReadReg,
    bind, ret, deref, store, deref_data, store_data,
    call_InitDeinit, call_Send, call_Receive in H.

Ltac reduce_run H :=
  cbv beta iota zeta delta [is_null orb andb negb Result_eqb] in H;
  cbn [hdl data world bus Platform Send Receive Init DeInit Device AddressI2C
       fst snd] in H.

(** Splits a hypothesis [H : run = Some (r, s')] into one case per path
    through the code. *)
Ltac follow H :=
  unfold_driver H; reduce_run H;
  repeat (lazymatch type of H with
          | ?lhs = _ =>
              let x := scrutinee lhs in
              destruct x eqn:?; try discriminate H
          end;
          reduce_run H).

(** Splits the conditional results left in [H]. *)
Ltac results H :=
  repeat match type of H with
         | context [if ?c then _ else _] => destruct c
         end.

(** With a non-null handler and both mandatory functions linked, every
    operation runs to a result. *)
Lemma exec_total s (op : PublicOp) :
  linked s -> exists r s', exec VALID op s = Some (r, s').
Proof.
  intros (send & recv & HS & HR).
  destruct (exec VALID op s) as [[r s']|] eqn:E; [eauto|].
  exfalso. destruct op; follow E; congruence.
Qed.

(** ** Parameter errors *)

(** C9. An operation of the public API that returns
    [PCA9534_INVALID_PARAM] has made no platform call: the bus log and the
    world behind it are as before the call.  And the listed calls do
    return it: [PCA9534_Init] with an unrecognised device tag, with address
    pins above 7, or with [Send] or [Receive] not linked;
    [PCA9534_SetDirOne], [PCA9534_WriteOne] and [PCA9534_ToggleOne] with a
    position above 7; [PCA9534_Read] with a null data pointer. *)
Theorem invalid_param_before_bus s :
  (forall p op r s',
     exec p op s = Some (r, s') -> r = PCA9534_INVALID_PARAM ->
     bus s' = bus s /\ world s' = world s) /\
  (forall p device pins,
     device <> PCA9534_DEVICE_PCA9534 -> device <> PCA9534_DEVICE_PCA9534A ->
     PCA9534_Init p device pins s = Some (PCA9534_INVALID_PARAM, s)) /\
  (forall p device pins,
     7 < pins ->
     exists s', PCA9534_Init p device pins s = Some (PCA9534_INVALID_PARAM, s')
                /\ bus s' = bus s /\ world s' = world s) /\
  (forall p device pins,
     Send (Platform (hdl s)) = None \/ Receive (Platform (hdl s)) = None ->
     exists s', PCA9534_Init p device pins s = Some (PCA9534_INVALID_PARAM, s')
                /\ bus s' = bus s /\ world s' = world s) /\
  (forall p Pos x,
     7 < Pos ->
     PCA9534_SetDirOne p Pos x s = Some (PCA9534_INVALID_PARAM, s) /\
     PCA9534_WriteOne p Pos x s = Some (PCA9534_INVALID_PARAM, s) /\
     PCA9534_ToggleOne p Pos s = Some (PCA9534_INVALID_PARAM, s)) /\
  (forall p, PCA9534_Read p NULL s = Some (PCA9534_INVALID_PARAM, s)).
Proof.
  assert (G : forall p op r s',
             exec p op s = Some (r, s') -> r = PCA9534_INVALID_PARAM ->
             bus s' = bus s /\ world s' = world s).
  { intros p op r s' H Hr.
    destruct op; follow H; results H;
      injection H as <- <-; try discriminate Hr; split; reflexivity. }
  split; [exact G|split; [|split; [|split; [|split]]]].
  - intros p device pins H0 H1. unfold PCA9534_Init.
    apply Z.eqb_neq in H0, H1. rewrite H0, H1.
    destruct p; reflexivity.
  - intros p device pins Hp.
    assert (E : exists s', PCA9534_Init p device pins s
                           = Some (PCA9534_INVALID_PARAM, s')).
    { destruct (PCA9534_Init p device pins s) as [[r s']|] eqn:E.
      + exists s'. f_equal. f_equal.
        apply Z.ltb_lt in Hp.
        follow E; results E; injection E as <- <-; try reflexivity; congruence.
      + exfalso. apply Z.ltb_lt in Hp. follow E; congruence. }
    destruct E as [s' E]. exists s'. split; [exact E|].
    exact (G p (OpInit device pins) _ _ E eq_refl).
  - intros p device pins Hn.
    assert (E : exists s', PCA9534_Init p device pins s
                           = Some (PCA9534_INVALID_PARAM, s')).
    { destruct (PCA9534_Init p device pins s) as [[r s']|] eqn:E.
      + exists s'. f_equal. f_equal.
        follow E; results E; injection E as <- <-; try reflexivity;
          destruct Hn; congruence.
      + exfalso. follow E; destruct Hn; congruence. }
    destruct E as [s' E]. exists s'. split; [exact E|].
    exact (G p (OpInit device pins) _ _ E eq_refl).
  - intros p Pos x Hp. apply Z.ltb_lt in Hp.
    unfold PCA9534_SetDirOne, PCA9534_WriteOne, PCA9534_ToggleOne.
    rewrite Hp. repeat split.
  - intros p. reflexivity.
Qed.

(** ** Frame *)

(** C10. Every operation other than [PCA9534_Init] and
    [PCA9534_SetAddressI2C], whatever it returns, leaves the handler object
    ([Device], [AddressI2C] and [Platform]) as it was; every one of them
    but [PCA9534_Read] also leaves the caller's data byte as it was.  What
    changes is the bus log and the world behind the bus.  (With both
    transport functions linked the operation does run to a result.) *)
Theorem handler_frame s (op : PublicOp) :
  writes_handler op = false ->
  (linked s -> exists r s', exec VALID op s = Some (r, s')) /\
  (forall p r s',
     exec p op s = Some (r, s') ->
     hdl s' = hdl s /\ (is_read_op op = false -> data s' = data s)).
Proof.
  intros Hop. split; [apply exec_total|].
  intros p r s' H.
  destruct op; try discriminate Hop; follow H; injection H as _ <-;
    (split; [reflexivity|]); cbn [is_read_op data]; intros Hrd;
    try reflexivity; discriminate Hrd.
Qed.

(** ** Transport failures *)

Ltac log_suppress :=
  let e := fresh "e" in
  let e' := fresh "e" in
  let Hin := fresh "Hin" in
  let Hin' := fresh "Hin" in
  let Hw := fresh "Hw" in
  let Hr := fresh "Hr" in
  intros e Hin Hw Hr e' Hin';
  cbn [In] in Hin, Hin'; ltb_facts;
  repeat match goal with
         | H : _ \/ _ |- _ => destruct H
         | H : False |- _ => destruct H
         end;
  subst; cbn [is_reg_write ev_ret] in *;
  first [reflexivity | discriminate | lia].

(** C8. With the handler and both transport functions linked, each of
    [PCA9534_Read], [PCA9534_Write], [PCA9534_WriteOne] and
    [PCA9534_Toggle] runs to a result, and if one of its platform calls
    returns a negative value then the result is [PCA9534_FAIL] and that
    call is the last one of the run (nothing is retried).  In particular,
    when a call of the read half fails, the run contains no register
    write. *)
Theorem port_ops_abort_on_failure s (op : PublicOp) :
  is_port_op op = true ->
  linked s ->
  exists r s' evs,
    exec VALID op s = Some (r, s') /\
    bus s' = bus s ++ evs /\
    (forall pre e post,
       evs = pre ++ e :: post -> ev_ret e < 0 ->
       r = PCA9534_FAIL /\ post = []) /\
    (forall e, In e evs -> is_reg_write e = false -> ev_ret e < 0 ->
               forall e', In e' evs -> is_reg_write e' = false).
Proof.
  intros Hop (send & recv & HS & HR).
  destruct op; try discriminate Hop; cbn [exec].
  - (* Read *)
    destruct Data.
    { exists PCA9534_INVALID_PARAM, s, []. split; [reflexivity|].
      split; [symmetry; apply app_nil_r|]. split; [|intros e []].
      intros [|? ?] e post He; discriminate He. }
    unfold PCA9534_Read, bind, deref_data, store_data.
    rewrite (ReadReg_run _ send recv) by assumption. cbv zeta.
    destruct (send _ _ _ _) as [r1 w1].
    destruct (r1 <? 0) eqn:L1.
    { eexists _, _, [_]. split; [reflexivity|]. split; [reflexivity|].
      split; [log_abort|log_suppress]. }
    destruct (recv _ _ _ _) as [[r2 buf] w2].
    cbn [fst snd hdl data world bus].
    destruct (r2 <? 0) eqn:L2; cbn [Result_eqb negb];
      (eexists _, _, [_; _]; split; [reflexivity|]; split; [reflexivity|];
       split; [log_abort|log_suppress]).
  - (* Write *)
    unfold PCA9534_Write, bind.
    rewrite (WriteReg_run _ send) by assumption.
    destruct (send _ _ _ _) as [r1 w1].
    destruct (r1 <? 0) eqn:L1; cbn [Result_eqb negb];
      (eexists _, _, [_]; split; [reflexivity|]; split; [reflexivity|];
       split; [log_abort|log_suppress]).
  - (* WriteOne *)
    unfold PCA9534_WriteOne.
    destruct (7 <? Pos).
    { exists PCA9534_INVALID_PARAM, s, []. split; [reflexivity|].
      split; [symmetry; apply app_nil_r|]. split; [|intros e []].
      intros [|? ?] e post He; discriminate He. }
    unfold bind at 1.
    rewrite (ReadReg_run _ send recv) by assumption. cbv zeta.
    destruct (send _ _ _ _) as [r1 w1].
    destruct (r1 <? 0) eqn:L1; cbn [fst snd Result_eqb negb].
    { eexists _, _, [_]. split; [reflexivity|]. split; [reflexivity|].
      split; [log_abort|log_suppress]. }
    destruct (recv _ _ _ _) as [[r2 buf] w2].
    destruct (r2 <? 0) eqn:L2; cbn [fst snd Result_eqb negb].
    { eexists _, _, [_; _]. split; [reflexivity|]. split; [reflexivity|].
      split; [log_abort|log_suppress]. }
    unfold PCA9534_Write, bind.
    rewrite (WriteReg_run _ send) by assumption.
    cbn [hdl data world bus].
    destruct (send _ _ _ _) as [r3 w3].
    destruct (r3 <? 0) eqn:L3; cbn [Result_eqb negb];
      (eexists _, _, [_; _; _]; split; [reflexivity|];
       split; [cbn [bus]; rewrite <- app_assoc; reflexivity|];
       split; [log_abort|log_suppress]).
  - (* Toggle *)
    unfold PCA9534_Toggle.
    unfold bind at 1.
    rewrite (ReadReg_run _ send recv) by assumption. cbv zeta.
    destruct (send _ _ _ _) as [r1 w1].
    destruct (r1 <? 0) eqn:L1; cbn [fst snd Result_eqb negb].
    { eexists _, _, [_]. split; [reflexivity|]. split; [reflexivity|].
      split; [log_abort|log_suppress]. }
    destruct (recv _ _ _ _) as [[r2 buf] w2].
    destruct (r2 <? 0) eqn:L2; cbn [fst snd Result_eqb negb].
    { eexists _, _, [_; _]. split; [reflexivity|]. split; [reflexivity|].
      split; [log_abort|log_suppress]. }
    unfold PCA9534_Write, bind.
    rewrite (WriteReg_run _ send) by assumption.
    cbn [hdl data world bus].
    destruct (send _ _ _ _) as [r3 w3].
    destruct (r3 <? 0) eqn:L3; cbn [Result_eqb negb];
      (eexists _, _, [_; _; _]; split; [reflexivity|];
       split; [cbn [bus]; rewrite <- app_assoc; reflexivity|];
       split; [log_abort|log_suppress]).
Qed.

(** ** Further properties of the driver *)

Lemma lor_base_pins (k : Z) :
  0 <= k <= 7 ->
  Z.lor PCA9534_I2C_ADDRESS_BASE k = PCA9534_I2C_ADDRESS_BASE + k /\
  Z.lor PCA9534A_I2C_ADDRESS_BASE k = PCA9534A_I2C_ADDRESS_BASE + k.
Proof.
  intros H.
  assert (C : k = 0 \/ k = 1 \/ k = 2 \/ k = 3 \/ k = 4 \/ k = 5 \/ k = 6 \/ k = 7)
    by lia.
  repeat (destruct C as [-> | C]; [split; reflexivity|]).
  subst k. split; reflexivity.
Qed.

(** Rewrites the goal with the facts a case split has recorded. *)
Ltac use_facts :=
  repeat match goal with
         | Hq : ?x = _ |- context [?x] => rewrite Hq
         end.

Ltac use_facts_in H :=
  repeat match goal with
         | Hq : ?x = _ |- _ =>
             lazymatch Hq with
             | H => fail
             | _ => rewrite Hq in H
             end
         end.

(** X1. With a null handler an operation either returns
    [PCA9534_INVALID_PARAM] with the state untouched or dereferences the
    null pointer: [PCA9534_Init] and [PCA9534_DeInit] always return, the
    others only when a parameter check placed before the first use of the
    handler fails. *)
Theorem null_handler_behaviour s (op : PublicOp) :
  exec NULL op s =
    if returns_before_deref op then Some (PCA9534_INVALID_PARAM, s) else None.
Proof.
  destruct op; cbn [exec returns_before_deref]; try reflexivity.
  - unfold PCA9534_SetAddressI2C. destruct (7 <? Address); reflexivity.
  - unfold PCA9534_SetDirOne. destruct (7 <? Pos); reflexivity.
  - destruct Data; reflexivity.
  - unfold PCA9534_WriteOne. destruct (7 <? Pos); reflexivity.
  - unfold PCA9534_ToggleOne. destruct (7 <? Pos); reflexivity.
Qed.

(** X2. With a non-null handler, an operation returns
    [PCA9534_INVALID_PARAM] exactly when one of its parameter checks
    fails: for [PCA9534_Init] an unknown device tag, address pins above 7,
    or [Send] or [Receive] not linked; for [PCA9534_SetAddressI2C] address
    pins above 7 or an unknown tag stored in the handler; for the
    single-bit operations a position above 7; for [PCA9534_Read] a null
    data pointer.  [PCA9534_DeInit], [PCA9534_SetDir], [PCA9534_Write] and
    [PCA9534_Toggle] never return it. *)
Theorem invalid_param_iff s (op : PublicOp) :
  (exists s', exec VALID op s = Some (PCA9534_INVALID_PARAM, s'))
  <-> invalid_args s op = true.
Proof.
  split.
  - intros [s' H].
    destruct op; follow H; results H; try discriminate H; clear H;
      cbn [invalid_args]; unfold known_device, is_null;
      try congruence; use_facts; reflexivity.
  - intros Hinv.
    destruct op; cbn [invalid_args] in Hinv; try discriminate Hinv;
      cbn [exec].
    + destruct (PCA9534_Init VALID Device_ Address s) as [[r s']|] eqn:E.
      * exists s'. f_equal. f_equal. unfold known_device, is_null in Hinv.
        follow E; results E; injection E as <- _; try reflexivity;
          exfalso; try congruence; use_facts_in Hinv; discriminate Hinv.
      * exfalso. follow E; congruence.
    + destruct (PCA9534_SetAddressI2C VALID Address s) as [[r s']|] eqn:E.
      * exists s'. f_equal. f_equal. unfold known_device in Hinv.
        follow E; results E; injection E as <- _; try reflexivity;
          exfalso; try congruence; use_facts_in Hinv; discriminate Hinv.
      * exfalso. follow E.
    + unfold PCA9534_SetDirOne. rewrite Hinv. eexists. reflexivity.
    + destruct Data; [|discriminate Hinv]. eexists. reflexivity.
    + unfold PCA9534_WriteOne. rewrite Hinv. eexists. reflexivity.
    + unfold PCA9534_ToggleOne. rewrite Hinv. eexists. reflexivity.
Qed.

Lemma Init_handler_cases s (device pins : Z) r s' :
  PCA9534_Init VALID device pins s = Some (r, s') ->
  r <> PCA9534_INVALID_PARAM ->
  known_device device = true /\ (7 <? pins) = false /\
  hdl s' = mkHandler device
             (u8 (Z.lor (if device =? PCA9534_DEVICE_PCA9534
                         then PCA9534_I2C_ADDRESS_BASE
                         else PCA9534A_I2C_ADDRESS_BASE) pins))
             (Platform (hdl s)) /\
  data s' = data s.
Proof.
  intros H Hr.
  follow H; results H; injection H as <- <-;
    try (exfalso; apply Hr; reflexivity); try congruence;
    unfold known_device; cbn [hdl data]; use_facts;
    repeat split; reflexivity.
Qed.

(** X3. When [PCA9534_Init] returns [PCA9534_OK] or [PCA9534_FAIL], the
    device tag was a known one and the address pins were at most 7, and the
    handler now holds that tag and the resolved address, base address plus
    pins (a 7-bit address); the platform functions and the caller's data
    byte are as before. *)
Theorem Init_resolves_handler s (device pins : Z) r s' :
  0 <= pins ->
  PCA9534_Init VALID device pins s = Some (r, s') ->
  r <> PCA9534_INVALID_PARAM ->
  known_device device = true /\ pins <= 7 /\
  hdl s' = mkHandler device
             ((if device =? PCA9534_DEVICE_PCA9534
               then PCA9534_I2C_ADDRESS_BASE
               else PCA9534A_I2C_ADDRESS_BASE) + pins)
             (Platform (hdl s)) /\
  resolved (hdl s') /\
  AddressI2C (hdl s') < 128 /\
  data s' = data s.
Proof.
  intros H0 H Hr.
  destruct (Init_handler_cases _ _ _ _ _ H Hr) as (Hk & Hp & Hh & Hd).
  apply Z.ltb_ge in Hp.
  destruct (lor_base_pins pins (conj H0 Hp)) as [LA LB].
  assert (Hh' : hdl s' = mkHandler device
             ((if device =? PCA9534_DEVICE_PCA9534
               then PCA9534_I2C_ADDRESS_BASE
               else PCA9534A_I2C_ADDRESS_BASE) + pins)
             (Platform (hdl s))).
  { rewrite Hh. f_equal.
    destruct (device =? PCA9534_DEVICE_PCA9534).
    - rewrite LA. apply u8_small. unfold PCA9534_I2C_ADDRESS_BASE. lia.
    - rewrite LB. apply u8_small. unfold PCA9534A_I2C_ADDRESS_BASE. lia. }
  split; [exact Hk|]. split; [exact Hp|]. split; [exact Hh'|].
  split; [|split; [|exact Hd]].
  - exists pins. split; [lia|]. rewrite Hh'. cbn [Device AddressI2C].
    unfold known_device in Hk. apply orb_true_iff in Hk.
    destruct Hk as [Hk | Hk]; apply Z.eqb_eq in Hk; subst device;
      [left | right]; split; reflexivity.
  - rewrite Hh'. cbn [AddressI2C].
    destruct (device =? PCA9534_DEVICE_PCA9534);
      unfold PCA9534_I2C_ADDRESS_BASE, PCA9534A_I2C_ADDRESS_BASE; lia.
Qed.

(** X4. [PCA9534_Init] stores the device tag before it checks the address
    pins: with a known tag and address pins above 7 it returns
    [PCA9534_INVALID_PARAM] and the handler's [Device] is already
    overwritten, while [AddressI2C], the platform functions, the bus and the
    world are as before. *)
Theorem Init_bad_pins_overwrites_Device s (device pins : Z) :
  known_device device = true ->
  7 < pins ->
  PCA9534_Init VALID device pins s =
    Some (PCA9534_INVALID_PARAM,
          mkState (mkHandler device (AddressI2C (hdl s)) (Platform (hdl s)))
                  (data s) (world s) (bus s)).
Proof.
  intros Hk Hp. apply Z.ltb_lt in Hp.
  unfold known_device in Hk. apply orb_true_iff in Hk.
  unfold PCA9534_Init, PCA9534_SetAddressI2C, bind, deref, store, ret.
  cbn [hdl data world bus].
  rewrite Hp.
  destruct Hk as [Hk | Hk]; apply Z.eqb_eq in Hk; subst device; reflexivity.
Qed.

(** X5. When the optional platform [Init] is linked and reports failure,
    [PCA9534_Init] returns [PCA9534_FAIL] after that single call: nothing is
    sent on the bus, and the handler already holds the tag and the resolved
    address. *)
Theorem Init_platform_init_failure s send recv pinit
        (device pins : Z) (r0 : int8_t) (w0 : World) :
  known_device device = true ->
  0 <= pins <= 7 ->
  Send (Platform (hdl s)) = Some send ->
  Receive (Platform (hdl s)) = Some recv ->
  Init (Platform (hdl s)) = Some pinit ->
  pinit (world s) = (r0, w0) ->
  r0 < 0 ->
  PCA9534_Init VALID device pins s =
    Some (PCA9534_FAIL,
          mkState (mkHandler device
                     (Z.lor (if device =? PCA9534_DEVICE_PCA9534
                             then PCA9534_I2C_ADDRESS_BASE
                             else PCA9534A_I2C_ADDRESS_BASE) pins)
                     (Platform (hdl s)))
                  (data s) w0 (bus s ++ [EvInit r0])).
Proof.
  intros Hk Hp HS HR HI Hcall Hr0.
  assert (Hd : device = PCA9534_DEVICE_PCA9534 \/ device = PCA9534_DEVICE_PCA9534A).
  { unfold known_device in Hk. apply orb_true_iff in Hk.
    destruct Hk as [Hk | Hk]; apply Z.eqb_eq in Hk; auto. }
  unfold PCA9534_Init.
  replace (negb (device =? PCA9534_DEVICE_PCA9534)
           && negb (device =? PCA9534_DEVICE_PCA9534A)) with false
    by (destruct Hd as [-> | ->]; reflexivity).
  unfold bind at 1. unfold deref at 1.
  unfold bind at 1. unfold store at 1.
  unfold bind at 1.
  rewrite (SetAddressI2C_run _ device pins Hd Hp) by reflexivity.
  cbn [hdl data world bus Platform Result_eqb negb].
  unfold bind at 1. unfold deref at 1. cbn [hdl Platform].
  rewrite HS, HR, HI. cbn [is_null orb].
  unfold bind at 1. unfold bind at 1. unfold call_InitDeinit.
  cbn [hdl data world bus]. rewrite Hcall.
  unfold ret at 1.
  replace (r0 <? 0) with true by (symmetry; apply Z.ltb_lt; exact Hr0).
  reflexivity.
Qed.

(** X6. An operation other than [PCA9534_Init] keeps a resolved handler
    resolved, with the same device tag and platform functions:
    [PCA9534_SetAddressI2C] either re-resolves the address for the stored
    tag or leaves it, and no other operation assigns to the handler. *)
Theorem resolved_preserved s p (op : PublicOp) r s' :
  is_OpInit op = false ->
  (forall a, op = OpSetAddressI2C a -> 0 <= a) ->
  resolved (hdl s) ->
  exec p op s = Some (r, s') ->
  resolved (hdl s') /\
  Device (hdl s') = Device (hdl s) /\
  Platform (hdl s') = Platform (hdl s).
Proof.
  intros Hop Ha Hres H.
  destruct op; try discriminate Hop;
    try solve [follow H; injection H as _ <-; cbn [hdl]; auto].
  specialize (Ha Address eq_refl).
  cbn [exec] in H.
  unfold PCA9534_SetAddressI2C, bind, deref, store, ret in H.
  destruct (7 <? Address) eqn:L; [injection H as _ <-; auto|].
  apply Z.ltb_ge in L.
  destruct (lor_base_pins Address (conj Ha L)) as [LA LB].
  rewrite LA, LB in H.
  rewrite (u8_small (PCA9534_I2C_ADDRESS_BASE + Address)) in H
    by (unfold PCA9534_I2C_ADDRESS_BASE; lia).
  rewrite (u8_small (PCA9534A_I2C_ADDRESS_BASE + Address)) in H
    by (unfold PCA9534A_I2C_ADDRESS_BASE; lia).
  destruct p; [discriminate H|].
  destruct (Device (hdl s) =? PCA9534_DEVICE_PCA9534) eqn:D0.
  { injection H as _ <-. cbn [hdl Device Platform AddressI2C].
    split; [|auto]. exists Address. split; [lia|]. left.
    apply Z.eqb_eq in D0. split; [exact D0|reflexivity]. }
  destruct (Device (hdl s) =? PCA9534_DEVICE_PCA9534A) eqn:D1.
  { injection H as _ <-. cbn [hdl Device Platform AddressI2C].
    split; [|auto]. exists Address. split; [lia|]. right.
    apply Z.eqb_eq in D1. split; [exact D1|reflexivity]. }
  injection H as _ <-. auto.
Qed.

(** Closes a goal about the calls an operation added to the log. *)
Ltac added_log :=
  first [ exists []; split; [symmetry; apply app_nil_r|]
        | eexists; split; [repeat rewrite <- app_assoc; reflexivity|] ];
  cbn [app].

(** X7. Every platform call of an operation is well formed: a send or a
    receive goes to the slave address the handler holds when the operation
    returns; a send carries a register address alone or with one data
    byte, with the matching length, and the register is one the operation
    owns (input port for [PCA9534_Read], output port for the write and
    toggle operations, configuration for the direction operations, the
    three writable registers for [PCA9534_Init]); the input port is never
    written; a receive asks for one byte; the platform [Init] and [DeInit]
    are called by [PCA9534_Init] and [PCA9534_DeInit] only. *)
Theorem bus_discipline s p (op : PublicOp) r s' :
  exec p op s = Some (r, s') ->
  exists evs,
    bus s' = bus s ++ evs /\
    Forall (event_ok (AddressI2C (hdl s')) op) evs.
Proof.
  intros H.
  destruct op; follow H; injection H as _ <-;
    cbn [bus hdl AddressI2C]; added_log; repeat constructor.
Qed.

(** X8. Every receive comes right after a successful send of a register
    address: the driver sets the register pointer before each read and
    never reads on after a failed send. *)
Theorem receive_follows_select s p (op : PublicOp) r s' :
  exec p op s = Some (r, s') ->
  exists evs,
    bus s' = bus s ++ evs /\ receives_selected None evs.
Proof.
  intros H.
  destruct op; follow H; injection H as _ <-;
    cbn [bus]; added_log; cbn [receives_selected selects];
    ltb_facts; repeat split; assumption.
Qed.

(** X9. [PCA9534_Read] with a data pointer sends the input-port register
    address and receives one byte into the caller's byte.  When the send
    fails nothing is received and the caller's byte is untouched.
    Otherwise the caller's byte becomes the first byte of the buffer as
    the transport left it, also when the receive reports failure, and the
    result is [PCA9534_OK] or [PCA9534_FAIL] by the sign of the receive's
    return value. *)
Theorem PCA9534_Read_spec s send recv (r1 : int8_t) (w1 : World) :
  Send (Platform (hdl s)) = Some send ->
  Receive (Platform (hdl s)) = Some recv ->
  send (AddressI2C (hdl s)) [PCA9534_REG_INPUT_PORT] 1 (world s) = (r1, w1) ->
  (r1 < 0 ->
   PCA9534_Read VALID VALID s =
     Some (PCA9534_FAIL,
           mkState (hdl s) (data s) w1
                   (bus s ++ [EvSend (AddressI2C (hdl s))
                                     [PCA9534_REG_INPUT_PORT] 1 r1])))
  /\
  (0 <= r1 ->
   forall r2 buf w2,
     recv (AddressI2C (hdl s)) [data s] 1 w1 = (r2, buf, w2) ->
     PCA9534_Read VALID VALID s =
       Some (if r2 <? 0 then PCA9534_FAIL else PCA9534_OK,
             mkState (hdl s) (nth 0 buf (data s)) w2
                     (bus s ++ [EvSend (AddressI2C (hdl s))
                                       [PCA9534_REG_INPUT_PORT] 1 r1;
                                EvReceive (AddressI2C (hdl s)) 1 r2 buf]))).
Proof.
  intros HS HR E1.
  unfold PCA9534_Read, bind, deref_data, store_data.
  rewrite (ReadReg_run _ send recv) by assumption. cbv zeta. rewrite E1.
  split.
  - intros Hr. replace (r1 <? 0) with true by (symmetry; apply Z.ltb_lt; lia).
    reflexivity.
  - intros Hr r2 buf w2 E2.
    replace (r1 <? 0) with false by (symmetry; apply Z.ltb_ge; lia).
    rewrite E2. cbn [fst snd hdl data world bus].
    destruct (r2 <? 0); reflexivity.
Qed.

(** X10. [PCA9534_DeInit] with a non-null handler always runs to
    [PCA9534_OK] or [PCA9534_FAIL], whether or not [Send] and [Receive] are
    linked, and puts nothing on the bus.  With no platform [DeInit] linked
    it returns [PCA9534_OK] and changes nothing; otherwise it calls the
    platform [DeInit] once and returns [PCA9534_OK] exactly when the
    returned value is not negative. *)
Theorem PCA9534_DeInit_spec s :
  exists r s' evs,
    PCA9534_DeInit VALID s = Some (r, s') /\
    bus s' = bus s ++ evs /\
    sent evs = [] /\
    r <> PCA9534_INVALID_PARAM /\
    hdl s' = hdl s /\
    (DeInit (Platform (hdl s)) = None -> r = PCA9534_OK /\ s' = s) /\
    (forall f, DeInit (Platform (hdl s)) = Some f ->
               evs = [EvDeInit (fst (f (world s)))] /\
               world s' = snd (f (world s)) /\
               (r = PCA9534_OK <-> 0 <= fst (f (world s)))).
Proof.
  unfold PCA9534_DeInit, bind, deref, call_InitDeinit, ret.
  destruct (DeInit (Platform (hdl s))) as [f|]; cbn [is_null].
  - destruct (f (world s)) as [r w] eqn:E.
    eexists _, _, [_]. split; [reflexivity|]. cbn [bus hdl world].
    split; [reflexivity|]. split; [reflexivity|].
    split; [destruct (0 <=? r); discriminate|].
    split; [reflexivity|]. split; [discriminate|].
    intros f' [= <-]. rewrite E. cbn [fst snd].
    split; [reflexivity|]. split; [reflexivity|].
    destruct (0 <=? r) eqn:L.
    + apply Z.leb_le in L. split; auto.
    + apply Z.leb_gt in L. split; [discriminate|lia].
  - exists PCA9534_OK, s, []. split; [reflexivity|].
    split; [symmetry; apply app_nil_r|]. split; [reflexivity|].
    split; [discriminate|]. split; [reflexivity|].
    split; [auto|discriminate].
Qed.

Lemma Init_runs s (device pins : Z) :
  known_device device = true ->
  0 <= pins <= 7 ->
  linked s ->
  exists r s',
    PCA9534_Init VALID device pins s = Some (r, s') /\
    r <> PCA9534_INVALID_PARAM.
Proof.
  intros Hk Hp (send & recv & HS & HR).
  unfold known_device in Hk.
  destruct (PCA9534_Init VALID device pins s) as [[r s']|] eqn:E.
  - exists r, s'. split; [reflexivity|]. intros ->.
    follow E; results E; try discriminate E;
      first [ congruence
            | ltb_facts; lia
            | use_facts_in Hk; discriminate Hk ].
  - exfalso. follow E; congruence.
Qed.

(** X11. After the link macros have stored a [Send] and a [Receive]
    function in the handler, in a handler whose other fields are
    arbitrary, [PCA9534_Init] with a known device tag and address pins in
    [0,7] runs to [PCA9534_OK] or [PCA9534_FAIL], never
    [PCA9534_INVALID_PARAM]; the linked functions are still in the handler
    afterwards and the optional [Init] and [DeInit] fields are as before. *)
Theorem link_then_Init s (f : PCA9534_Platform_Send_t World)
        (g : PCA9534_Platform_Receive_t World) (device pins : Z) :
  known_device device = true ->
  0 <= pins <= 7 ->
  exists r s',
    bind (PCA9534_PLATFORM_LINK_SEND VALID (Some f)) (fun _ =>
    bind (PCA9534_PLATFORM_LINK_RECEIVE VALID (Some g)) (fun _ =>
    PCA9534_Init VALID device pins)) s = Some (r, s') /\
    r <> PCA9534_INVALID_PARAM /\
    Send (Platform (hdl s')) = Some f /\
    Receive (Platform (hdl s')) = Some g /\
    Init (Platform (hdl s')) = Init (Platform (hdl s)) /\
    DeInit (Platform (hdl s')) = DeInit (Platform (hdl s)).
Proof.
  intros Hk Hp.
  unfold PCA9534_PLATFORM_LINK_SEND, PCA9534_PLATFORM_LINK_RECEIVE.
  unfold bind at 1. unfold bind at 1. unfold deref at 1. unfold store at 1.
  unfold bind at 1. unfold bind at 1. unfold deref at 1. unfold store at 1.
  cbn [hdl data world bus Device AddressI2C Platform Init DeInit Send Receive].
  match goal with
  | |- context [PCA9534_Init VALID device pins ?st] => set (s1 := st)
  end.
  assert (L1 : linked s1) by (exists f, g; split; reflexivity).
  destruct (Init_runs s1 device pins Hk Hp L1) as (r & s' & E & Hr).
  exists r, s'. split; [exact E|]. split; [exact Hr|].
  destruct (Init_handler_cases _ _ _ _ _ E Hr) as (_ & _ & Hh & _).
  rewrite Hh. repeat split.
Qed.

End DriverProofs.

(** ** Runs against the simulated device *)

Lemma sim_Send_select (a r : Z) (d : SimDevice) :
  a = sim_address d -> valid_reg r = true ->
  sim_Send a [r] 1 d = (0, sim_select r d).
Proof.
  intros -> Hr. unfold sim_Send. rewrite Z.eqb_refl, Hr. reflexivity.
Qed.

Lemma sim_Send_write (a r v : Z) (d : SimDevice) :
  a = sim_address d -> valid_reg r = true ->
  sim_Send a [r; v] 2 d = (0, sim_write r v d).
Proof.
  intros -> Hr. unfold sim_Send. rewrite Z.eqb_refl, Hr. reflexivity.
Qed.

Lemma sim_Send_nack (a : Z) (bytes : list Z) (len : Z) (d : SimDevice) :
  a <> sim_address d -> sim_Send a bytes len d = (-3, d).
Proof.
  intros Ha. unfold sim_Send. apply Z.eqb_neq in Ha. rewrite Ha. reflexivity.
Qed.

Lemma sim_Receive_selected (a x : Z) (d : SimDevice) :
  a = sim_address d -> sim_Receive a [x] 1 d = (0, [sim_selected d], d).
Proof.
  intros ->. unfold sim_Receive. rewrite Z.eqb_refl. reflexivity.
Qed.

(** [PCA9534_Toggle] against the addressed device. *)
Lemma Toggle_sim (s : State SimDevice) (Mask : uint8_t) :
  Send (Platform (hdl s)) = Some sim_Send ->
  Receive (Platform (hdl s)) = Some sim_Receive ->
  AddressI2C (hdl s) = sim_address (world s) ->
  0 <= Mask < 256 ->
  0 <= sim_output (world s) < 256 ->
  let a := AddressI2C (hdl s) in
  let R := sim_output (world s) in
  PCA9534_Toggle VALID Mask s =
    Some (PCA9534_OK,
          mkState (hdl s) (data s)
                  (sim_write PCA9534_REG_OUTPUT_PORT (Z.lxor R Mask)
                             (sim_select PCA9534_REG_OUTPUT_PORT (world s)))
                  (bus s ++
                   [EvSend a [PCA9534_REG_OUTPUT_PORT] 1 0;
                    EvReceive a 1 0 [R];
                    EvSend a [PCA9534_REG_OUTPUT_PORT; Z.lxor R Mask] 2 0])).
Proof.
  intros HS HR HA HM HO a R.
  unfold PCA9534_Toggle, PCA9534_Write, bind.
  rewrite (ReadReg_run _ _ sim_Send sim_Receive) by assumption.
  cbv zeta.
  rewrite sim_Send_select by (exact HA || reflexivity).
  rewrite sim_Receive_selected by exact HA.
  cbn [Z.ltb Z.compare fst snd nth Result_eqb negb].
  rewrite (WriteReg_run _ _ sim_Send) by exact HS.
  cbn [hdl data world bus].
  change (sim_selected (sim_select PCA9534_REG_OUTPUT_PORT (world s))) with R.
  rewrite (u8_lxor R Mask) by assumption.
  rewrite sim_Send_write by (exact HA || reflexivity).
  cbn [Z.ltb Z.compare Result_eqb negb]. unfold ret.
  rewrite <- app_assoc. reflexivity.
Qed.

(** [PCA9534_Toggle] when no device answers at the handler's address. *)
Lemma Toggle_sim_nack (s : State SimDevice) (Mask : uint8_t) :
  Send (Platform (hdl s)) = Some sim_Send ->
  Receive (Platform (hdl s)) = Some sim_Receive ->
  AddressI2C (hdl s) <> sim_address (world s) ->
  PCA9534_Toggle VALID Mask s =
    Some (PCA9534_FAIL,
          mkState (hdl s) (data s) (world s)
                  (bus s ++ [EvSend (AddressI2C (hdl s))
                                    [PCA9534_REG_OUTPUT_PORT] 1 (-3)])).
Proof.
  intros HS HR HA.
  unfold PCA9534_Toggle, bind.
  rewrite (ReadReg_run _ _ sim_Send sim_Receive) by assumption.
  cbv zeta. rewrite sim_Send_nack by exact HA. reflexivity.
Qed.

(** C6. On the simulated device, whose output register only the driver
    writes, two successive [PCA9534_Toggle] calls with the same 8-bit mask
    leave the output register at its original value; when the handler
    addresses the device both calls return [PCA9534_OK] and the first one
    leaves the register at the original value xor the mask. *)
Theorem PCA9534_Toggle_involution
        (h : PCA9534_Handler_t SimDevice) (d : SimDevice)
        (user : uint8_t) (log : list BusEvent) (Mask : uint8_t) :
  Send (Platform h) = Some sim_Send ->
  Receive (Platform h) = Some sim_Receive ->
  0 <= Mask < 256 ->
  0 <= sim_output d < 256 ->
  exists r1 s1 r2 s2,
    PCA9534_Toggle VALID Mask (mkState h user d log) = Some (r1, s1) /\
    PCA9534_Toggle VALID Mask s1 = Some (r2, s2) /\
    sim_output (world s2) = sim_output d /\
    (AddressI2C h = sim_address d ->
     r1 = PCA9534_OK /\ r2 = PCA9534_OK /\
     sim_output (world s1) = Z.lxor (sim_output d) Mask).
Proof.
  intros HS HR HM HO.
  destruct (Z.eq_dec (AddressI2C h) (sim_address d)) as [HA | HA].
  - (* the device is addressed: both calls go through *)
    assert (HX : 0 <= Z.lxor (sim_output d) Mask < 256)
      by (rewrite <- (u8_lxor (sim_output d) Mask) by assumption;
          apply u8_range).
    eexists _, _, _, _.
    split; [apply Toggle_sim; assumption|].
    split; [apply Toggle_sim; cbn; assumption|].
    cbn. rewrite lxor_twice. split; [reflexivity|].
    intros _. repeat split.
  - (* no acknowledge: both calls fail at the first send, nothing changes *)
    eexists _, _, _, _.
    split; [apply Toggle_sim_nack; assumption|].
    split; [apply Toggle_sim_nack; assumption|].
    split; [reflexivity|]. intros E. contradiction.
Qed.

(** C1. [PCA9534_SetDirOne] is meant to write back the configuration byte
    it read with only bit [Pos] changed, bit [Pos] being 0 for an output
    ([Dir = 1]) and 1 for an input ([Dir = 0]).  The code does otherwise.
    On the device after reset (configuration [0xFF], all pins inputs),
    asking for pin 0 as an output writes [0x01] to the configuration
    register, not [0xFE]: pin 0 stays an input and pins 1 to 7 become
    outputs. *)
Example PCA9534_SetDirOne_reset_pin0_output :
  PCA9534_SetDirOne VALID 0 1 (sim_state (sim_reset 0x23)) =
    Some (PCA9534_OK,
          mkState (mkHandler PCA9534_DEVICE_PCA9534 0x23 sim_Platform) 0
                  (mkSim 0x23 PCA9534_REG_CONFIGURATION 0x00 0xFF 0x00 0x01)
                  [EvSend 0x23 [PCA9534_REG_CONFIGURATION] 1 0;
                   EvReceive 0x23 1 0 [0xFF];
                   EvSend 0x23 [PCA9534_REG_CONFIGURATION; 0x01] 2 0]).
Proof. vm_compute. reflexivity. Qed.

(** ** Operations composed on the simulated device *)

Lemma sim_write_address (r v : Z) (d : SimDevice) :
  sim_address (sim_write r v d) = sim_address d.
Proof.
  unfold sim_write, sim_select.
  destruct (r =? PCA9534_REG_OUTPUT_PORT); [reflexivity|].
  destruct (r =? PCA9534_REG_POLARITY_INVERT); [reflexivity|].
  destruct (r =? PCA9534_REG_CONFIGURATION); reflexivity.
Qed.

Lemma sim_write_output (v : Z) (d : SimDevice) :
  sim_output (sim_write PCA9534_REG_OUTPUT_PORT v d) = v.
Proof. reflexivity. Qed.

Lemma WriteReg_sim (s : State SimDevice) (reg v : Z) :
  Send (Platform (hdl s)) = Some sim_Send ->
  AddressI2C (hdl s) = sim_address (world s) ->
  valid_reg reg = true ->
  PCA9534_WriteReg VALID reg v s =
    Some (PCA9534_OK,
          mkState (hdl s) (data s) (sim_write reg v (world s))
                  (bus s ++ [EvSend (AddressI2C (hdl s)) [reg; v] 2 0])).
Proof.
  intros HS HA Hr.
  rewrite (WriteReg_run _ _ sim_Send) by exact HS.
  rewrite sim_Send_write by assumption. reflexivity.
Qed.

Lemma ReadReg_sim (s : State SimDevice) (reg d0 : Z) :
  on_bus s ->
  valid_reg reg = true ->
  PCA9534_ReadReg VALID reg d0 s =
    Some ((PCA9534_OK, sim_selected (sim_select reg (world s))),
          mkState (hdl s) (data s) (sim_select reg (world s))
                  (bus s ++
                   [EvSend (AddressI2C (hdl s)) [reg] 1 0;
                    EvReceive (AddressI2C (hdl s)) 1 0
                              [sim_selected (sim_select reg (world s))]])).
Proof.
  intros (HS & HR & HA) Hr.
  rewrite (ReadReg_run _ _ sim_Send sim_Receive) by assumption.
  cbv zeta. rewrite sim_Send_select by assumption.
  rewrite sim_Receive_selected by exact HA. reflexivity.
Qed.

(** [PCA9534_WriteOne] against the addressed device. *)
Lemma WriteOne_sim (s : State SimDevice) (Pos Value : uint8_t) :
  on_bus s ->
  0 <= Pos <= 7 ->
  0 <= sim_output (world s) < 256 ->
  let R := sim_output (world s) in
  let R' := if Value =? 0 then Z.land R (Z.lnot (Z.shiftl 1 Pos))
            else Z.lor R (Z.shiftl 1 Pos) in
  PCA9534_WriteOne VALID Pos Value s =
    Some (PCA9534_OK,
          mkState (hdl s) (data s)
                  (sim_write PCA9534_REG_OUTPUT_PORT R'
                             (sim_select PCA9534_REG_OUTPUT_PORT (world s)))
                  (bus s ++
                   [EvSend (AddressI2C (hdl s)) [PCA9534_REG_OUTPUT_PORT] 1 0;
                    EvReceive (AddressI2C (hdl s)) 1 0 [R];
                    EvSend (AddressI2C (hdl s))
                           [PCA9534_REG_OUTPUT_PORT; R'] 2 0])).
Proof.
  intros B HP HO R R'. pose proof B as (HS & HR & HA).
  unfold PCA9534_WriteOne, PCA9534_Write.
  replace (7 <? Pos) with false by (symmetry; apply Z.ltb_ge; lia).
  unfold bind at 1. rewrite ReadReg_sim by (exact B || reflexivity).
  cbn [fst snd Result_eqb negb].
  change (sim_selected (sim_select PCA9534_REG_OUTPUT_PORT (world s))) with R.
  replace (if negb (Value =? 0) then u8 (Z.lor R (Z.shiftl 1 Pos))
           else u8 (Z.land R (Z.lnot (Z.shiftl 1 Pos)))) with R'.
  - unfold bind. rewrite WriteReg_sim by (exact HS || exact HA || reflexivity).
    cbn [hdl data world bus Result_eqb negb]. unfold ret.
    rewrite <- app_assoc. reflexivity.
  - unfold R'. destruct (Value =? 0); cbn [negb].
    + rewrite u8_clear_bit by exact HO. reflexivity.
    + rewrite u8_set_bit by assumption. reflexivity.
Qed.

Lemma write_bit_testbit (R Pos Value i : Z) :
  0 <= Pos -> 0 <= i ->
  Z.testbit (if Value =? 0 then Z.land R (Z.lnot (Z.shiftl 1 Pos))
             else Z.lor R (Z.shiftl 1 Pos)) i
  = if Pos =? i then negb (Value =? 0) else Z.testbit R i.
Proof.
  intros HP Hi. destruct (Value =? 0); cbn [negb].
  - rewrite Z.land_spec, Z.lnot_spec, bit_testbit by lia.
    destruct (Pos =? i); cbn [negb];
      [apply andb_false_r | apply andb_true_r].
  - rewrite Z.lor_spec, bit_testbit by lia.
    destruct (Pos =? i); [apply orb_true_r | apply orb_false_r].
Qed.

(** X12. On the addressed device [PCA9534_WriteOne] returns [PCA9534_OK]
    and changes the output register in bit [Pos] only: that bit becomes 1
    for a nonzero [Value] and 0 for a zero one, every other bit keeps its
    value, and the input, polarity and configuration registers are
    untouched. *)
Theorem WriteOne_sets_one_bit (s : State SimDevice) (Pos Value : uint8_t) :
  on_bus s ->
  0 <= Pos <= 7 ->
  0 <= sim_output (world s) < 256 ->
  exists s',
    PCA9534_WriteOne VALID Pos Value s = Some (PCA9534_OK, s') /\
    (forall i, 0 <= i ->
       Z.testbit (sim_output (world s')) i =
         if Pos =? i then negb (Value =? 0)
         else Z.testbit (sim_output (world s)) i) /\
    sim_input (world s') = sim_input (world s) /\
    sim_polarity (world s') = sim_polarity (world s) /\
    sim_config (world s') = sim_config (world s).
Proof.
  intros B HP HO. eexists. split; [apply WriteOne_sim; assumption|].
  cbn [world]. split; [|repeat split].
  intros i Hi. apply write_bit_testbit; lia.
Qed.

(** X13. [PCA9534_WriteOne] is idempotent on the addressed device: a
    second call with the same position and value returns [PCA9534_OK] and
    leaves the output register as the first call left it. *)
Theorem WriteOne_idempotent (s : State SimDevice) (Pos Value : uint8_t) :
  on_bus s ->
  0 <= Pos <= 7 ->
  0 <= sim_output (world s) < 256 ->
  exists s1 s2,
    PCA9534_WriteOne VALID Pos Value s = Some (PCA9534_OK, s1) /\
    PCA9534_WriteOne VALID Pos Value s1 = Some (PCA9534_OK, s2) /\
    sim_output (world s2) = sim_output (world s1).
Proof.
  intros B HP HO. pose proof B as (HS & HR & HA).
  set (R := sim_output (world s)).
  set (R' := if Value =? 0 then Z.land R (Z.lnot (Z.shiftl 1 Pos))
             else Z.lor R (Z.shiftl 1 Pos)).
  assert (HR' : 0 <= R' < 256).
  { unfold R'. destruct (Value =? 0).
    - rewrite <- (u8_clear_bit R Pos) by exact HO. apply u8_range.
    - rewrite <- (u8_set_bit R Pos) by assumption. apply u8_range. }
  eexists _, _. split; [apply WriteOne_sim; assumption|].
  split.
  - apply WriteOne_sim; [|exact HP|exact HR'].
    repeat split; cbn [hdl world]; assumption.
  - cbn [world]. rewrite !sim_write_output. fold R R'.
    apply Z.bits_inj'. intros i Hi.
    rewrite (write_bit_testbit R' Pos Value i) by lia.
    unfold R'. rewrite (write_bit_testbit R Pos Value i) by lia.
    destruct (Pos =? i); reflexivity.
Qed.

(** X14. Toggles compose on the addressed device: [PCA9534_Toggle] with
    mask [m1] and then with mask [m2] both return [PCA9534_OK] and leave
    the output register at the original value xor [m1 xor m2], so the
    order of the two masks does not matter. *)
Theorem Toggle_compose (s : State SimDevice) (m1 m2 : uint8_t) :
  on_bus s ->
  0 <= m1 < 256 -> 0 <= m2 < 256 ->
  0 <= sim_output (world s) < 256 ->
  exists s1 s2,
    PCA9534_Toggle VALID m1 s = Some (PCA9534_OK, s1) /\
    PCA9534_Toggle VALID m2 s1 = Some (PCA9534_OK, s2) /\
    sim_output (world s2) = Z.lxor (sim_output (world s)) (Z.lxor m1 m2).
Proof.
  intros (HS & HR & HA) H1 H2 HO.
  assert (HX : 0 <= Z.lxor (sim_output (world s)) m1 < 256)
    by (rewrite <- (u8_lxor (sim_output (world s)) m1) by assumption;
        apply u8_range).
  eexists _, _.
  split; [apply Toggle_sim; assumption|].
  split; [apply Toggle_sim; cbn; assumption|].
  cbn. apply Z.lxor_assoc.
Qed.

(** X15. On the addressed device [PCA9534_ToggleOne] returns [PCA9534_OK]
    and inverts bit [Pos] of the output register, leaving every other bit
    as it was. *)
Theorem ToggleOne_flips_one_bit (s : State SimDevice) (Pos : uint8_t) :
  on_bus s ->
  0 <= Pos <= 7 ->
  0 <= sim_output (world s) < 256 ->
  exists s',
    PCA9534_ToggleOne VALID Pos s = Some (PCA9534_OK, s') /\
    forall i, 0 <= i ->
      Z.testbit (sim_output (world s')) i =
        if Pos =? i then negb (Z.testbit (sim_output (world s)) i)
        else Z.testbit (sim_output (world s)) i.
Proof.
  intros (HS & HR & HA) HP HO.
  assert (HM : 0 <= Z.shiftl 1 Pos < 256)
    by (rewrite <- (u8_bit Pos HP); apply u8_range).
  eexists. split.
  - unfold PCA9534_ToggleOne.
    replace (7 <? Pos) with false by (symmetry; apply Z.ltb_ge; lia).
    cbv zeta. rewrite u8_bit by exact HP.
    apply Toggle_sim; assumption.
  - intros i Hi. cbn. rewrite Z.lxor_spec, bit_testbit by lia.
    destruct (Pos =? i); [apply xorb_true_r | apply xorb_false_r].
Qed.

(** X16. Against the device it addresses, [PCA9534_Init] returns
    [PCA9534_OK] and brings the device to its reset values whatever the
    registers held: output port [0xFF], polarity inversion [0x00],
    configuration [0xFF] (all pins inputs); the input port is untouched and
    the handler is left talking to the device. *)
Theorem Init_resets_device (s : State SimDevice) (device pins : Z) :
  Send (Platform (hdl s)) = Some sim_Send ->
  Receive (Platform (hdl s)) = Some sim_Receive ->
  (forall h, Init (Platform (hdl s)) = Some h ->
             h (world s) = (0, world s)) ->
  known_device device = true ->
  0 <= pins <= 7 ->
  sim_address (world s) =
    (if device =? PCA9534_DEVICE_PCA9534 then PCA9534_I2C_ADDRESS_BASE
     else PCA9534A_I2C_ADDRESS_BASE) + pins ->
  exists s',
    PCA9534_Init VALID device pins s = Some (PCA9534_OK, s') /\
    on_bus s' /\
    sim_output (world s') = 0xFF /\
    sim_polarity (world s') = 0x00 /\
    sim_config (world s') = 0xFF /\
    sim_input (world s') = sim_input (world s).
Proof.
  intros HS HR Hhook Hk Hp Haddr.
  assert (Hd : device = PCA9534_DEVICE_PCA9534 \/ device = PCA9534_DEVICE_PCA9534A).
  { unfold known_device in Hk. apply orb_true_iff in Hk.
    destruct Hk as [Hk | Hk]; apply Z.eqb_eq in Hk; auto. }
  assert (HA : Z.lor (if device =? PCA9534_DEVICE_PCA9534
                      then PCA9534_I2C_ADDRESS_BASE
                      else PCA9534A_I2C_ADDRESS_BASE) pins
               = sim_address (world s)).
  { rewrite Haddr. destruct (lor_base_pins pins Hp) as [LA LB].
    destruct (device =? PCA9534_DEVICE_PCA9534); assumption. }
  unfold PCA9534_Init.
  replace (negb (device =? PCA9534_DEVICE_PCA9534)
           && negb (device =? PCA9534_DEVICE_PCA9534A)) with false
    by (destruct Hd as [-> | ->]; reflexivity).
  unfold bind at 1. unfold deref at 1.
  unfold bind at 1. unfold store at 1.
  unfold bind at 1.
  rewrite (SetAddressI2C_run _ _ device pins Hd Hp) by reflexivity.
  cbn [hdl data world bus Platform Result_eqb negb].
  unfold bind at 1. unfold deref at 1. cbn [hdl Platform].
  rewrite HS, HR. cbn [is_null orb].
  rewrite HA.
  assert (Hwrites : forall log,
    exists s',
      bind (PCA9534_WriteReg VALID PCA9534_REG_OUTPUT_PORT 255)
           (fun r =>
              if negb (Result_eqb r PCA9534_OK) then ret PCA9534_FAIL
              else
                bind (PCA9534_WriteReg VALID PCA9534_REG_POLARITY_INVERT 0)
                     (fun r =>
                        if negb (Result_eqb r PCA9534_OK) then ret PCA9534_FAIL
                        else
                          bind (PCA9534_WriteReg VALID PCA9534_REG_CONFIGURATION 255)
                               (fun r =>
                                  if negb (Result_eqb r PCA9534_OK)
                                  then ret PCA9534_FAIL
                                  else ret PCA9534_OK)))
           (mkState (mkHandler device (sim_address (world s)) (Platform (hdl s)))
                    (data s) (world s) log)
      = Some (PCA9534_OK, s') /\
      on_bus s' /\
      sim_output (world s') = 0xFF /\
      sim_polarity (world s') = 0x00 /\
      sim_config (world s') = 0xFF /\
      sim_input (world s') = sim_input (world s)).
  { intros log.
    unfold bind at 1.
    rewrite WriteReg_sim by (exact HS || reflexivity).
    cbn [hdl data world bus AddressI2C Result_eqb negb].
    unfold bind at 1.
    rewrite WriteReg_sim
      by (exact HS || reflexivity
          || (cbn [hdl world AddressI2C]; symmetry; apply sim_write_address)).
    cbn [hdl data world bus AddressI2C Result_eqb negb].
    unfold bind at 1.
    rewrite WriteReg_sim
      by (exact HS || reflexivity
          || (cbn [hdl world AddressI2C];
              rewrite !sim_write_address; reflexivity)).
    cbn [hdl data world bus AddressI2C Result_eqb negb].
    eexists. split; [reflexivity|]. cbn [world].
    split; [|repeat split].
    split; [exact HS|]. split; [exact HR|].
    cbn [hdl world AddressI2C]. rewrite !sim_write_address. reflexivity. }
  destruct (Init (Platform (hdl s))) as [h|] eqn:EI; cbn [is_null].
  - unfold bind at 1. unfold bind at 1. unfold call_InitDeinit.
    cbn [hdl data world bus]. rewrite (Hhook h eq_refl).
    unfold ret at 1. cbn [Z.ltb Z.compare]. apply Hwrites.
  - unfold bind at 1. unfold ret at 1. apply Hwrites.
Qed.

(** [PCA9534_SetDirOne] against the addressed device. *)
Lemma SetDirOne_sim (s : State SimDevice) (Pos Dir : uint8_t) :
  on_bus s ->
  0 <= Pos <= 7 ->
  0 <= sim_config (world s) < 256 ->
  exists B : uint8_t,
    (forall i, 0 <= i < 8 ->
       Z.testbit B i = if Pos =? i then negb (Dir =? 0)
                       else negb (Z.testbit (sim_config (world s)) i)) /\
    0 <= B < 256 /\
    exists log,
      PCA9534_SetDirOne VALID Pos Dir s =
        Some (PCA9534_OK,
              mkState (hdl s) (data s)
                      (sim_write PCA9534_REG_CONFIGURATION B
                                 (sim_select PCA9534_REG_CONFIGURATION (world s)))
                      log).
Proof.
  intros (HS & HR & HA) HP HC.
  destruct (PCA9534_SetDirOne_run SimDevice s sim_Send sim_Receive Pos Dir
              (sim_config (world s)) 0 0
              (sim_select PCA9534_REG_CONFIGURATION (world s))
              (sim_select PCA9534_REG_CONFIGURATION (world s))
              HP HC HS HR)
    as (B & r3 & w3 & Hbits & HB & Esend & Erun).
  - apply sim_Send_select; [exact HA|reflexivity].
  - lia.
  - apply sim_Receive_selected. exact HA.
  - lia.
  - rewrite sim_Send_write in Esend by (exact HA || reflexivity).
    injection Esend as <- <-.
    exists B. split; [exact Hbits|]. split; [exact HB|].
    eexists. exact Erun.
Qed.

(** X17. Two identical [PCA9534_SetDirOne] calls on the addressed device
    both return [PCA9534_OK].  The first leaves the configuration register
    complemented at the seven other bits, the second restores those bits;
    after either call bit [Pos] is 1 for a nonzero [Dir] and 0 for
    [Dir = 0]. *)
Theorem SetDirOne_twice (s : State SimDevice) (Pos Dir : uint8_t) :
  on_bus s ->
  0 <= Pos <= 7 ->
  0 <= sim_config (world s) < 256 ->
  exists s1 s2,
    PCA9534_SetDirOne VALID Pos Dir s = Some (PCA9534_OK, s1) /\
    PCA9534_SetDirOne VALID Pos Dir s1 = Some (PCA9534_OK, s2) /\
    (forall i, 0 <= i < 8 ->
       Z.testbit (sim_config (world s1)) i =
         if Pos =? i then negb (Dir =? 0)
         else negb (Z.testbit (sim_config (world s)) i)) /\
    (forall i, 0 <= i < 8 ->
       Z.testbit (sim_config (world s2)) i =
         if Pos =? i then negb (Dir =? 0)
         else Z.testbit (sim_config (world s)) i).
Proof.
  intros B0 HP HC. pose proof B0 as (HS & HR & HA).
  destruct (SetDirOne_sim s Pos Dir B0 HP HC)
    as (B1 & Hb1 & HB1 & log1 & E1).
  set (s1 := mkState (hdl s) (data s)
                     (sim_write PCA9534_REG_CONFIGURATION B1
                        (sim_select PCA9534_REG_CONFIGURATION (world s)))
                     log1) in *.
  assert (B1' : on_bus s1) by (repeat split; assumption).
  destruct (SetDirOne_sim s1 Pos Dir B1' HP HB1)
    as (B2 & Hb2 & HB2 & log2 & E2).
  eexists _, _. split; [exact E1|]. split; [exact E2|].
  split.
  - intros i Hi. exact (Hb1 i Hi).
  - intros i Hi. cbn [world].
    change (Z.testbit B2 i =
            if Pos =? i then negb (Dir =? 0)
            else Z.testbit (sim_config (world s)) i).
    rewrite (Hb2 i Hi).
    change (sim_config (world s1)) with B1.
    rewrite (Hb1 i Hi).
    destruct (Pos =? i); [reflexivity|apply negb_involutive].
Qed.

(** ** The theorems at concrete inputs *)

Lemma PCA9534_SetAddressI2C_spec_witness :
  PCA9534_SetAddressI2C VALID 3
      (mkState (mkHandler PCA9534_DEVICE_PCA9534A 0 sim_Platform) 0
               (sim_reset 0x3B) []) =
    Some (PCA9534_OK,
          mkState (mkHandler PCA9534_DEVICE_PCA9534A 0x3B sim_Platform) 0
                  (sim_reset 0x3B) [])
  /\ PCA9534_SetAddressI2C VALID 8 (sim_state (sim_reset 0x23)) =
       Some (PCA9534_INVALID_PARAM, sim_state (sim_reset 0x23)).
Proof.
  split.
  - destruct (PCA9534_SetAddressI2C_spec SimDevice
                (mkState (mkHandler PCA9534_DEVICE_PCA9534A 0 sim_Platform) 0
                         (sim_reset 0x3B) []) 3) as [H _].
    apply H; [lia | reflexivity].
  - destruct (PCA9534_SetAddressI2C_spec SimDevice (sim_state (sim_reset 0x23)) 8)
      as [_ [H _]].
    apply H. lia.
Defined.

Lemma PCA9534_Init_spec_witness :
  exists r s' evs,
    PCA9534_Init VALID PCA9534_DEVICE_PCA9534 3
        (mkState (mkHandler 0 0 sim_Platform_full) 0 (sim_reset 0x23) [])
      = Some (r, s') /\
    bus s' = evs /\
    (Forall (fun e => 0 <= ev_ret e) evs -> r = PCA9534_OK) /\
    (exists k, sent evs = firstn k (init_writes 0x23)).
Proof.
  destruct (PCA9534_Init_spec SimDevice
              (mkState (mkHandler 0 0 sim_Platform_full) 0 (sim_reset 0x23) [])
              sim_Send sim_Receive PCA9534_DEVICE_PCA9534 3)
    as (r & s' & evs & E & Hb & Hok & _ & Hk).
  - left. reflexivity.
  - lia.
  - reflexivity.
  - reflexivity.
  - exists r, s', evs. split; [exact E|]. split; [exact Hb|].
    split; [|exact Hk]. intros F. apply Hok. exact F.
Defined.

Lemma PCA9534_SetDir_spec_witness :
  exists r w,
    PCA9534_SetDir VALID 0x01 (sim_state (sim_reset 0x23)) =
      Some (if r <? 0 then PCA9534_FAIL else PCA9534_OK,
            mkState (mkHandler PCA9534_DEVICE_PCA9534 0x23 sim_Platform) 0 w
                    [EvSend 0x23 [PCA9534_REG_CONFIGURATION; 0xFE] 2 r]).
Proof.
  destruct (PCA9534_SetDir_spec SimDevice (sim_state (sim_reset 0x23))
              sim_Send 0x01)
    as (byte & r & w & Hb & _ & _ & E).
  - lia.
  - reflexivity.
  - subst byte. exists r, w. exact E.
Defined.

Lemma PCA9534_ToggleOne_is_Toggle_witness :
  PCA9534_ToggleOne VALID 3 (sim_state (sim_reset 0x23)) =
  PCA9534_Toggle VALID 8 (sim_state (sim_reset 0x23)).
Proof.
  apply (PCA9534_ToggleOne_is_Toggle SimDevice VALID
           (sim_state (sim_reset 0x23)) 3).
  lia.
Defined.

Lemma PCA9534_WriteOne_spec_witness :
  exists R' r3 w3,
    R' = 4 /\
    PCA9534_WriteOne VALID 2 1
        (sim_state (mkSim 0x23 0 0x00 0x00 0x00 0x00)) =
      Some (if r3 <? 0 then PCA9534_FAIL else PCA9534_OK,
            mkState (mkHandler PCA9534_DEVICE_PCA9534 0x23 sim_Platform) 0 w3
                    [EvSend 0x23 [PCA9534_REG_OUTPUT_PORT] 1 0;
                     EvReceive 0x23 1 0 [0x00];
                     EvSend 0x23 [PCA9534_REG_OUTPUT_PORT; R'] 2 r3]).
Proof.
  destruct (PCA9534_WriteOne_spec SimDevice
              (sim_state (mkSim 0x23 0 0x00 0x00 0x00 0x00))
              sim_Send sim_Receive 2 1 0x00
              0 0 (mkSim 0x23 1 0x00 0x00 0x00 0x00)
              (mkSim 0x23 1 0x00 0x00 0x00 0x00))
    as (R' & r3 & w3 & HR' & _ & E & H1 & _).
  - lia.
  - lia.
  - reflexivity.
  - reflexivity.
  - reflexivity.
  - lia.
  - reflexivity.
  - lia.
  - exists R', r3, w3. split; [|exact E].
    rewrite (H1 eq_refl eq_refl). reflexivity.
Defined.

Lemma PCA9534_Toggle_involution_witness :
  exists r1 s1 r2 s2,
    PCA9534_Toggle VALID 0x0F (sim_state (sim_reset 0x23)) = Some (r1, s1) /\
    PCA9534_Toggle VALID 0x0F s1 = Some (r2, s2) /\
    sim_output (world s2) = 0xFF /\
    (r1 = PCA9534_OK /\ r2 = PCA9534_OK /\ sim_output (world s1) = 0xF0).
Proof.
  destruct (PCA9534_Toggle_involution
              (mkHandler PCA9534_DEVICE_PCA9534 0x23 sim_Platform)
              (sim_reset 0x23) 0 [] 0x0F)
    as (r1 & s1 & r2 & s2 & E1 & E2 & Hback & Hok).
  - reflexivity.
  - reflexivity.
  - lia.
  - simpl. lia.
  - exists r1, s1, r2, s2. split; [exact E1|]. split; [exact E2|].
    split; [exact Hback|]. apply Hok. reflexivity.
Defined.

(** A handler bound to address [0x23] while the device answers at [0x24]:
    the first send of every operation is not acknowledged. *)
Lemma port_ops_abort_on_failure_witness :
  linked (sim_state (sim_reset 0x24)) /\
  exists r s' evs,
    exec VALID (OpToggle 0xFF) (sim_state (sim_reset 0x24)) = Some (r, s') /\
    bus s' = evs /\
    (forall pre e post,
       evs = pre ++ e :: post -> ev_ret e < 0 ->
       r = PCA9534_FAIL /\ post = []).
Proof.
  assert (L : linked (sim_state (sim_reset 0x24)))
    by (exists sim_Send, sim_Receive; split; reflexivity).
  split; [exact L|].
  destruct (port_ops_abort_on_failure SimDevice (sim_state (sim_reset 0x24))
              (OpToggle 0xFF) eq_refl L)
    as (r & s' & evs & E & Hb & Hab & _).
  exists r, s', evs. split; [exact E|]. split; [exact Hb|exact Hab].
Defined.

Lemma invalid_param_before_bus_witness :
  PCA9534_Init VALID 7 3 (sim_state (sim_reset 0x23)) =
    Some (PCA9534_INVALID_PARAM, sim_state (sim_reset 0x23))
  /\ PCA9534_Read VALID NULL (sim_state (sim_reset 0x23)) =
       Some (PCA9534_INVALID_PARAM, sim_state (sim_reset 0x23)).
Proof.
  destruct (invalid_param_before_bus SimDevice (sim_state (sim_reset 0x23)))
    as (_ & Hdev & _ & _ & _ & Hread).
  split.
  - apply Hdev; discriminate.
  - apply Hread.
Defined.

Lemma handler_frame_witness :
  hdl (mkState (mkHandler PCA9534_DEVICE_PCA9534 0x23 sim_Platform) 0
               (mkSim 0x23 PCA9534_REG_OUTPUT_PORT 0x00 0x55 0x00 0xFF)
               [EvSend 0x23 [PCA9534_REG_OUTPUT_PORT; 0x55] 2 0])
  = hdl (sim_state (sim_reset 0x23)).
Proof.
  destruct (handler_frame SimDevice (sim_state (sim_reset 0x23))
              (OpWrite 0x55) eq_refl) as [_ H].
  apply (H VALID PCA9534_OK). reflexivity.
Defined.

Lemma on_bus_sim_state (d : SimDevice) :
  sim_address d = 0x23 -> on_bus (sim_state d).
Proof. intros H. repeat split. symmetry. exact H. Qed.

Lemma Init_resolves_handler_witness :
  exists r s',
    PCA9534_Init VALID PCA9534_DEVICE_PCA9534A 5
                 (mkState (mkHandler 0 0 sim_Platform) 0 (sim_reset 0x3D) [])
      = Some (r, s') /\
    AddressI2C (hdl s') = 0x3D /\ Device (hdl s') = PCA9534_DEVICE_PCA9534A.
Proof.
  eexists _, _. split; [vm_compute; reflexivity|].
  destruct (Init_resolves_handler SimDevice
              (mkState (mkHandler 0 0 sim_Platform) 0 (sim_reset 0x3D) [])
              PCA9534_DEVICE_PCA9534A 5 PCA9534_OK _
              ltac:(lia) ltac:(vm_compute; reflexivity) ltac:(discriminate))
    as (_ & _ & Hh & _).
  rewrite Hh. split; reflexivity.
Defined.

Lemma Init_bad_pins_overwrites_Device_witness :
  PCA9534_Init VALID PCA9534_DEVICE_PCA9534A 9 (sim_state (sim_reset 0x23)) =
    Some (PCA9534_INVALID_PARAM,
          mkState (mkHandler PCA9534_DEVICE_PCA9534A 0x23 sim_Platform) 0
                  (sim_reset 0x23) []).
Proof.
  apply (Init_bad_pins_overwrites_Device SimDevice (sim_state (sim_reset 0x23))
           PCA9534_DEVICE_PCA9534A 9).
  - reflexivity.
  - lia.
Defined.

Lemma Init_platform_init_failure_witness :
  PCA9534_Init VALID PCA9534_DEVICE_PCA9534 3
      (mkState (mkHandler 0 0 sim_Platform_bad_init) 0 (sim_reset 0x23) []) =
    Some (PCA9534_FAIL,
          mkState (mkHandler PCA9534_DEVICE_PCA9534 0x23 sim_Platform_bad_init)
                  0 (sim_reset 0x23) [EvInit (-1)]).
Proof.
  apply (Init_platform_init_failure SimDevice
           (mkState (mkHandler 0 0 sim_Platform_bad_init) 0 (sim_reset 0x23) [])
           sim_Send sim_Receive (fun d => (-1, d))
           PCA9534_DEVICE_PCA9534 3 (-1) (sim_reset 0x23)).
  - reflexivity.
  - lia.
  - reflexivity.
  - reflexivity.
  - reflexivity.
  - reflexivity.
  - lia.
Defined.

Lemma resolved_preserved_witness :
  exists r s',
    exec VALID (OpSetAddressI2C 5) (sim_state (sim_reset 0x25)) = Some (r, s') /\
    resolved (hdl s').
Proof.
  eexists _, _. split; [vm_compute; reflexivity|].
  apply (resolved_preserved SimDevice (sim_state (sim_reset 0x25)) VALID
           (OpSetAddressI2C 5) PCA9534_OK).
  - reflexivity.
  - intros a [= <-]. lia.
  - exists 3. split; [lia|]. left. split; reflexivity.
  - vm_compute. reflexivity.
Defined.

Lemma bus_discipline_witness :
  exists r s' evs,
    exec VALID (OpWriteOne 2 1) (sim_state (sim_reset 0x23)) = Some (r, s') /\
    bus s' = evs /\
    Forall (event_ok (AddressI2C (hdl s')) (OpWriteOne 2 1)) evs.
Proof.
  eexists _, _. 
  assert (E : exec VALID (OpWriteOne 2 1) (sim_state (sim_reset 0x23))
              = Some (PCA9534_OK,
                      mkState (mkHandler PCA9534_DEVICE_PCA9534 0x23 sim_Platform)
                              0 (mkSim 0x23 1 0x00 0xFF 0x00 0xFF)
                              [EvSend 0x23 [1] 1 0; EvReceive 0x23 1 0 [0xFF];
                               EvSend 0x23 [1; 0xFF] 2 0]))
    by (vm_compute; reflexivity).
  destruct (bus_discipline SimDevice _ _ _ _ _ E) as (evs & Hb & Hf).
  exists evs. split; [exact E|]. split; [exact Hb|exact Hf].
Defined.

Lemma receive_follows_select_witness :
  exists r s' evs,
    exec VALID (OpRead VALID) (sim_state (sim_reset 0x23)) = Some (r, s') /\
    bus s' = evs /\ receives_selected None evs.
Proof.
  eexists _, _.
  assert (E : exec VALID (OpRead VALID) (sim_state (sim_reset 0x23))
              = Some (PCA9534_OK,
                      mkState (mkHandler PCA9534_DEVICE_PCA9534 0x23 sim_Platform)
                              0 (mkSim 0x23 0 0x00 0xFF 0x00 0xFF)
                              [EvSend 0x23 [0] 1 0; EvReceive 0x23 1 0 [0x00]]))
    by (vm_compute; reflexivity).
  destruct (receive_follows_select SimDevice _ _ _ _ _ E) as (evs & Hb & Hf).
  exists evs. split; [exact E|]. split; [exact Hb|exact Hf].
Defined.

Lemma PCA9534_Read_spec_witness :
  PCA9534_Read VALID VALID (sim_state (mkSim 0x23 3 0xA5 0xFF 0x00 0xFF)) =
    Some (PCA9534_OK,
          mkState (mkHandler PCA9534_DEVICE_PCA9534 0x23 sim_Platform) 0xA5
                  (mkSim 0x23 0 0xA5 0xFF 0x00 0xFF)
                  [EvSend 0x23 [PCA9534_REG_INPUT_PORT] 1 0;
                   EvReceive 0x23 1 0 [0xA5]]).
Proof.
  destruct (PCA9534_Read_spec SimDevice
              (sim_state (mkSim 0x23 3 0xA5 0xFF 0x00 0xFF))
              sim_Send sim_Receive 0 (mkSim 0x23 0 0xA5 0xFF 0x00 0xFF)
              eq_refl eq_refl eq_refl) as [_ H].
  apply (H ltac:(lia) 0 [0xA5] (mkSim 0x23 0 0xA5 0xFF 0x00 0xFF)).
  reflexivity.
Defined.

Lemma link_then_Init_witness :
  exists r s',
    bind (PCA9534_PLATFORM_LINK_SEND VALID (Some sim_Send)) (fun _ =>
    bind (PCA9534_PLATFORM_LINK_RECEIVE VALID (Some sim_Receive)) (fun _ =>
    PCA9534_Init VALID PCA9534_DEVICE_PCA9534 3))
      (mkState (mkHandler 0 0 (mkPlatform None None None None)) 0
               (sim_reset 0x23) [])
    = Some (r, s') /\
    r <> PCA9534_INVALID_PARAM.
Proof.
  destruct (link_then_Init SimDevice
              (mkState (mkHandler 0 0 (mkPlatform None None None None)) 0
                       (sim_reset 0x23) [])
              sim_Send sim_Receive PCA9534_DEVICE_PCA9534 3)
    as (r & s' & E & Hr & _).
  - reflexivity.
  - lia.
  - exists r, s'. split; [exact E|exact Hr].
Defined.

Lemma WriteOne_sets_one_bit_witness :
  exists s',
    PCA9534_WriteOne VALID 2 0 (sim_state (sim_reset 0x23))
      = Some (PCA9534_OK, s') /\
    Z.testbit (sim_output (world s')) 2 = false /\
    Z.testbit (sim_output (world s')) 5 = true.
Proof.
  destruct (WriteOne_sets_one_bit (sim_state (sim_reset 0x23)) 2 0)
    as (s' & E & Hbits & _).
  - apply on_bus_sim_state. reflexivity.
  - lia.
  - simpl. lia.
  - exists s'. split; [exact E|].
    split; [exact (Hbits 2 ltac:(lia))|exact (Hbits 5 ltac:(lia))].
Defined.

Lemma WriteOne_idempotent_witness :
  exists s1 s2,
    PCA9534_WriteOne VALID 7 0 (sim_state (sim_reset 0x23))
      = Some (PCA9534_OK, s1) /\
    PCA9534_WriteOne VALID 7 0 s1 = Some (PCA9534_OK, s2) /\
    sim_output (world s2) = sim_output (world s1).
Proof.
  apply (WriteOne_idempotent (sim_state (sim_reset 0x23)) 7 0).
  - apply on_bus_sim_state. reflexivity.
  - lia.
  - simpl. lia.
Defined.

Lemma Toggle_compose_witness :
  exists s1 s2,
    PCA9534_Toggle VALID 0x0F (sim_state (sim_reset 0x23))
      = Some (PCA9534_OK, s1) /\
    PCA9534_Toggle VALID 0x3C s1 = Some (PCA9534_OK, s2) /\
    sim_output (world s2) = 0xCC.
Proof.
  apply (Toggle_compose (sim_state (sim_reset 0x23)) 0x0F 0x3C).
  - apply on_bus_sim_state. reflexivity.
  - lia.
  - lia.
  - simpl. lia.
Defined.

Lemma ToggleOne_flips_one_bit_witness :
  exists s',
    PCA9534_ToggleOne VALID 4 (sim_state (sim_reset 0x23))
      = Some (PCA9534_OK, s') /\
    Z.testbit (sim_output (world s')) 4 = false /\
    Z.testbit (sim_output (world s')) 3 = true.
Proof.
  destruct (ToggleOne_flips_one_bit (sim_state (sim_reset 0x23)) 4)
    as (s' & E & Hbits).
  - apply on_bus_sim_state. reflexivity.
  - lia.
  - simpl. lia.
  - exists s'. split; [exact E|].
    split; [exact (Hbits 4 ltac:(lia))|exact (Hbits 3 ltac:(lia))].
Defined.

Lemma Init_resets_device_witness :
  exists s',
    PCA9534_Init VALID PCA9534_DEVICE_PCA9534 3
        (mkState (mkHandler 0 0 sim_Platform_full) 0
                 (mkSim 0x23 2 0x5A 0x12 0x34 0x56) [])
      = Some (PCA9534_OK, s') /\
    sim_output (world s') = 0xFF /\
    sim_polarity (world s') = 0x00 /\
    sim_config (world s') = 0xFF.
Proof.
  destruct (Init_resets_device
              (mkState (mkHandler 0 0 sim_Platform_full) 0
                       (mkSim 0x23 2 0x5A 0x12 0x34 0x56) [])
              PCA9534_DEVICE_PCA9534 3)
    as (s' & E & _ & Ho & Hp & Hc & _).
  - reflexivity.
  - reflexivity.
  - intros h [= <-]. reflexivity.
  - reflexivity.
  - lia.
  - reflexivity.
  - exists s'. split; [exact E|]. split; [exact Ho|]. split; [exact Hp|exact Hc].
Defined.

Lemma SetDirOne_twice_witness :
  exists s1 s2,
    PCA9534_SetDirOne VALID 0 1 (sim_state (sim_reset 0x23))
      = Some (PCA9534_OK, s1) /\
    PCA9534_SetDirOne VALID 0 1 s1 = Some (PCA9534_OK, s2) /\
    Z.testbit (sim_config (world s1)) 1 = false /\
    Z.testbit (sim_config (world s2)) 1 = true /\
    Z.testbit (sim_config (world s2)) 0 = true.
Proof.
  destruct (SetDirOne_twice (sim_state (sim_reset 0x23)) 0 1)
    as (s1 & s2 & E1 & E2 & H1 & H2).
  - apply on_bus_sim_state. reflexivity.
  - lia.
  - simpl. lia.
  - exists s1, s2. split; [exact E1|]. split; [exact E2|].
    split; [exact (H1 1 ltac:(lia))|].
    split; [exact (H2 1 ltac:(lia))|exact (H2 0 ltac:(lia))].
Defined.
